(** * SimpleCovidModel: the SIRD dynamics of [model.py]

    A shallow embedding of the class [SimpleCovidModel].  Python floats are
    read as real numbers ([R]): the statements about them are about the
    exact arithmetic of the formulas.  Where rounding or overflow decides a
    statement, the two rate functions are also given on binary64 numbers
    (module [binary64]).
    The numerical collaborators ([scipy.integrate.odeint], [lmfit]) are the
    methods of the class [Numerics]: the theorems hold for whatever they
    compute.  Three names of the source are reserved words here:
    [lmfit.Parameter] is [lmfit.Param], the local [mod] is [mod_], and the
    local [params] of [fit] and [optimize] is [params_] (next to the
    attribute [params]). *)

From Stdlib Require Import Reals Lra ZArith Lia List.
From stdpp Require Import base option list gmap strings.
From Stdlib Require Import PrimFloat.

Local Open Scope R_scope.

(** ** Rate functions *)

(** [SimpleCovidModel.beta]; [self] is not used by the body. *)
Definition beta (beta_a beta_b beta_k t : R) : R :=
  beta_k / (1 + exp (beta_a + beta_b * t)).

(** [SimpleCovidModel.lockdown]. *)
Definition lockdown (a b t : R) : R :=
  1 / (1 + exp (a + b * t)).

(** ** The derivative function *)

(** The state vector [y] and the returned rates are Python 4-tuples. *)
Definition vec4 : Type := (R * R * R * R)%type.

(** [SimpleCovidModel.deriv].  The only attribute of [self] that is read is
    the population size, passed here as [N].  The compartments [S, I, R, D] are
    written [Sc], [Ic], [Rc], [Dc]: the short names are taken by [nat],
    [True] and the reals.  Python's [-x * y] is
    [(-x) * y], and [*], [/] associate to the left, as in [R_scope]. *)
Definition deriv (N : R) (y : vec4) (t : R)
    (beta_a beta_b beta_k slipthrough lockdown_a lockdown_b gamma rho : R)
    : vec4 :=
  let '(Sc, Ic, Rc, Dc) := y in
  let dSdt :=
    - beta beta_a beta_b beta_k t
    * (lockdown lockdown_a lockdown_b t - slipthrough)
    * Sc
    * Ic
    / N in
  let dIdt :=
    beta beta_a beta_b beta_k t
    * (1 + slipthrough - lockdown lockdown_a lockdown_b t)
    * Sc
    * Ic
    / N
    - gamma * Ic in
  let dRdt := (1 - rho) * gamma * Ic in
  let dDdt := rho * gamma * Ic in
  (dSdt, dIdt, dRdt, dDdt).

(** Sum of the four components of a rate vector. *)
Definition total (v : vec4) : R :=
  let '(a, b, c, d) := v in a + b + c + d.

(** The fourth (Dead) component. *)
Definition dead (v : vec4) : R := snd v.

(** The second (Infected) component. *)
Definition infected (v : vec4) : R := snd (fst (fst v)).

(** The first (Susceptible) and third (Recovered) components. *)
Definition susceptible (v : vec4) : R := fst (fst (fst v)).

Definition recovered (v : vec4) : R := snd (fst v).

(** The rates as the specification writes them, with the quotient by the
    population taken last and the sign outside the product. *)
Definition deriv_spec (N : R) (y : vec4) (t : R)
    (beta_a beta_b beta_k slipthrough lockdown_a lockdown_b gamma rho : R)
    : vec4 :=
  let '(Sc, Ic, Rc, Dc) := y in
  let b := beta beta_a beta_b beta_k t in
  let l := lockdown lockdown_a lockdown_b t in
  ( - ((b * (l - slipthrough) * Sc * Ic) / N),
    (b * (1 + slipthrough - l) * Sc * Ic) / N - gamma * Ic,
    (1 - rho) * gamma * Ic,
    rho * gamma * Ic ).

(** Limits at infinity of a real function, in epsilon form. *)
Definition tends_to_at_plus_infinity (f : R -> R) (l : R) : Prop :=
  forall eps, 0 < eps -> exists T, forall t, T < t -> Rabs (f t - l) < eps.

Definition tends_to_at_minus_infinity (f : R -> R) (l : R) : Prop :=
  forall eps, 0 < eps -> exists T, forall t, t < T -> Rabs (f t - l) < eps.

(** ** The rate functions on binary64 numbers *)

Module binary64.

Local Open Scope float_scope.

(** [np.exp] on binary64 numbers. *)
Class Libm : Type := { np_exp : float -> float }.

(** [SimpleCovidModel.beta], every operation rounded as numpy does. *)
Definition beta `{Libm} (beta_a beta_b beta_k t : float) : float :=
  beta_k / (1 + np_exp (beta_a + beta_b * t)).

(** [SimpleCovidModel.lockdown]. *)
Definition lockdown `{Libm} (a b t : float) : float :=
  1 / (1 + np_exp (a + b * t)).

(** [np.exp] at the arguments used in the examples of this file: the
    correctly rounded values of [exp 0], [exp 2] and [exp (-40)], and the
    overflow to infinity from 710 on.  Other arguments are not tabulated. *)
Definition exp_samples (x : float) : float :=
  if x =? 0 then 1
  else if x =? 2 then 0x1.d8e64b8d4ddaep+2
  else if x =? -40 then 0x1.39792499b1a24p-58
  else if 710 <=? x then infinity
  else nan.

Definition numpy : Libm := {| np_exp := exp_samples |}.

End binary64.

(** ** The time grid *)

(** [numpy.linspace(start, stop, num)] with its default [endpoint=True],
    following numpy's implementation: [arange(0, num)] scaled by
    [step = (stop - start) / (num - 1)] and shifted by [start], the last
    sample then overwritten with [stop] when [num > 1].  A negative [num]
    raises [ValueError] ([None]).  With [num = 1] there is no step and the
    only sample is [start]. *)
Definition linspace (start stop : R) (num : Z) : option (list R) :=
  if (num <? 0)%Z then None
  else
    let div := (num - 1)%Z in
    let delta := stop - start in
    let y := INR <$> seq 0 (Z.to_nat num) in
    let y :=
      if (0 <? div)%Z
      then (fun v => v * (delta / IZR div)) <$> y
      else (fun v => v * delta) <$> y in
    let y := (fun v => v + start) <$> y in
    Some (if (1 <? num)%Z then <[pred (length y) := stop]> y else y).

(** ** Parameters *)

Module lmfit.

(** An [lmfit.Parameter] object ([Param]: the full word is reserved),
    reduced to the attributes the program sets: its value and its bounds
    ([None] for an infinite bound). *)
Record Param : Type := mkParam {
  value : R;
  min : option R;
  max : option R
}.

(** An [lmfit.Parameters] object: a dict from names to parameters. *)
Abbreviation Params := (gmap string Param).

(** [params.add(name, min=.., max=.., value=..)]. *)
Definition add (params : Params) (name : string)
    (min max value : R) : Params :=
  <[name := mkParam value (Some min) (Some max)]> params.

(** What a model function returns: a scalar or a one-dimensional array. *)
Inductive ndvalue : Type :=
| Scalar (v : R)
| Array1 (v : list R).

(** [lmfit.Model(func)]: the wrapped function, called with the
    independent variable [x] and the parameters by keyword, and the
    parameter names read off its signature.  The function fails
    ([None]) when it raises. *)
Record Model : Type := mkModel {
  func : list R -> gmap string R -> option ndvalue;
  param_names : list string
}.

End lmfit.

(** A value held in [self.params]: the dict given to the constructor holds
    numbers, the [Parameters] object stored by [fit] holds [Parameter]s. *)
Inductive pyval : Type :=
| PyFloat (v : R)
| PyParameter (p : lmfit.Param).

(** The number a stored value stands for in arithmetic. *)
Definition float_of (v : pyval) : R :=
  match v with
  | PyFloat x => x
  | PyParameter p => lmfit.value p
  end.

(** The extra arguments handed to [odeint], in the order of [deriv]. *)
Definition args8 : Type := (R * R * R * R * R * R * R * R)%type.

(** ** The numerical collaborators *)

(** [odeint(func, y0, t, args)] returns one state per time point;
    [make_params] is [Model.make_params()]; [Model_fit] is
    [Model.fit(data, params, method=.., x=.., **kwargs)] and yields
    [result.params], or [None] when the fit raises.  [Model.fit] works on a
    deep copy of the [params] it is handed, so the caller's object is the same
    after the call: the fitted values exist in the result only. *)
Class Numerics : Type := {
  odeint : (vec4 -> R -> args8 -> vec4) -> vec4 -> list R -> args8 -> list vec4;
  make_params : lmfit.Model -> lmfit.Params;
  Model_fit : lmfit.Model -> list R -> lmfit.Params -> string -> list R ->
              gmap string pyval -> option lmfit.Params
}.

(** ** The model object *)

Record SimpleCovidModel : Type := mkSimpleCovidModel {
  params : gmap string pyval;
  N : R;
  days : Z;
  y0 : vec4;
  t : list R;
  fit_data : list R
}.

(** [self.params = p]. *)
Definition set_params (self : SimpleCovidModel) (p : gmap string pyval)
    : SimpleCovidModel :=
  mkSimpleCovidModel p (N self) (days self) (y0 self) (t self) (fit_data self).

(** [SimpleCovidModel.__init__]. *)
Definition init (N : R) (days : Z) (y0 : vec4) (params : gmap string pyval)
    (fit_data : list R) : option SimpleCovidModel :=
  t ← linspace 0 (IZR days) days;
  Some (mkSimpleCovidModel params N days y0 t fit_data).

(** The bound method [self.deriv] as [odeint] calls it. *)
Definition deriv_of (self : SimpleCovidModel) : vec4 -> R -> args8 -> vec4 :=
  fun y t '(beta_a, beta_b, beta_k, slipthrough,
            lockdown_a, lockdown_b, gamma, rho) =>
    deriv (N self) y t
      beta_a beta_b beta_k slipthrough lockdown_a lockdown_b gamma rho.

(** [ret.T]: the four compartment sequences of a trajectory. *)
Definition transpose (ret : list vec4)
    : list R * list R * list R * list R :=
  (susceptible <$> ret,
   infected <$> ret,
   recovered <$> ret,
   dead <$> ret).

(** Exact integration on [[0, T]]: a trajectory [y] each of whose
    compartments has, at every time of the interval, the derivative that
    [self.deriv] returns for it. *)
Definition exact_trajectory (self : SimpleCovidModel) (args : args8)
    (y : R -> vec4) (T : R) : Prop :=
  forall t, 0 <= t <= T ->
    derivable_pt_lim (fun u => susceptible (y u)) t
      (susceptible (deriv_of self (y t) t args))
    /\ derivable_pt_lim (fun u => infected (y u)) t
         (infected (deriv_of self (y t) t args))
    /\ derivable_pt_lim (fun u => recovered (y u)) t
         (recovered (deriv_of self (y t) t args))
    /\ derivable_pt_lim (fun u => dead (y u)) t
         (dead (deriv_of self (y t) t args)).

(** Without transmission ([beta_k = 0]) the infected decay exponentially at
    rate [gamma] and are split by [rho] between Recovered and Dead. *)
Definition decay (gamma rho : R) (u : R) : vec4 :=
  (999,
   exp (- gamma * u),
   (1 - rho) * (1 - exp (- gamma * u)),
   rho * (1 - exp (- gamma * u))).

(** A model of 1000 people, half of them infected, with
    [slipthrough = 0.5] and flat rate curves, and the trajectory that keeps
    [S] and [I] fixed while [R] and [D] grow linearly. *)
Definition drift_args : args8 := (0, 0, 0.4, 0.5, 0, 0, 0.1, 0.02).

Definition drift_model : SimpleCovidModel :=
  mkSimpleCovidModel
    (list_to_map
       [("beta_a", PyFloat 0); ("beta_b", PyFloat 0); ("beta_k", PyFloat 0.4);
        ("slipthrough", PyFloat 0.5); ("lockdown_a", PyFloat 0);
        ("lockdown_b", PyFloat 0); ("gamma", PyFloat 0.1);
        ("rho", PyFloat 0.02)])
    1000 1 (500, 500, 0, 0) [0] [0].

Definition drift (u : R) : vec4 := (500, 500, 49 * u, u).

(** An explicit Euler integrator and a solver that stops at its starting
    point: one concrete choice of the collaborators. *)
Definition vec4_axpy (h : R) (v y : vec4) : vec4 :=
  let '(v1, v2, v3, v4) := v in
  let '(y1, y2, y3, y4) := y in
  (y1 + h * v1, y2 + h * v2, y3 + h * v3, y4 + h * v4).

Fixpoint euler_steps (f : vec4 -> R -> vec4) (y : vec4) (t0 : R)
    (ts : list R) : list vec4 :=
  match ts with
  | [] => []
  | t1 :: ts' =>
      let y' := vec4_axpy (t1 - t0) (f y t0) y in
      y' :: euler_steps f y' t1 ts'
  end.

Definition euler (f : vec4 -> R -> args8 -> vec4) (y0 : vec4) (t : list R)
    (args : args8) : list vec4 :=
  match t with
  | [] => []
  | t0 :: ts => y0 :: euler_steps (fun y t => f y t args) y0 t0 ts
  end.

Definition unbounded (v : R) : lmfit.Param :=
  lmfit.mkParam v None None.

Definition start_point (params : lmfit.Params)
    (kwargs : gmap string pyval) : lmfit.Params :=
  union_with (fun _ k => Some k) params
    ((fun v => unbounded (float_of v)) <$> kwargs).

Definition euler_numerics : Numerics := {|
  odeint := euler;
  make_params := fun mod_ =>
    list_to_map ((fun name => (name, unbounded 0)) <$> lmfit.param_names mod_);
  Model_fit := fun mod_ data params method x kwargs =>
    Some (start_point params kwargs)
|}.

(** A one-day model holding the parameters of the sample scenario, with the
    stored [lockdown_a] at [0.7]. *)
Definition sample_params : gmap string pyval :=
  list_to_map
    [("beta_a", PyFloat 0); ("beta_b", PyFloat 0); ("beta_k", PyFloat 0.4);
     ("slipthrough", PyFloat 0); ("lockdown_a", PyFloat 0.7);
     ("lockdown_b", PyFloat 0); ("gamma", PyFloat 0.1); ("rho", PyFloat 0.02)].

Definition sample_model : SimpleCovidModel :=
  mkSimpleCovidModel sample_params 1000 1 (999, 1, 0, 0) [0] [0].

(** A population without infected, at rest. *)
Definition rest (u : R) : vec4 := (999, 0, 1, 0).

(** The entry that [optimize] stores under both intervention names. *)
Definition stored_guess : pyval :=
  PyParameter (lmfit.mkParam 0.2 (Some 0) (Some 1)).

(** ** Plotting *)

(** What [plot] leaves on one axis: its title and the labelled curves, each
    drawn against the time grid.  Styling (legend, ticks, spines, axis
    labels) is not modelled. *)
Record Axes : Type := mkAxes {
  title : string;
  curves : list (string * list R)
}.

(** [ax.plot(x, y, ..., label=label)]: matplotlib raises [ValueError] when
    [x] and [y] differ in length. *)
Definition ax_plot (x y : list R) (label : string)
    : option (string * list R) :=
  if decide (length x = length y) then Some (label, y) else None.

(** The inner function [set_ax] of [plot]; [t] and [self] are the variables
    it closes over.  The Susceptible and Recovered curves are commented out
    in the source. *)
Definition set_ax (self : SimpleCovidModel) (t : list R)
    (Ss Is Rs Ds : list R) : option (list (string * list R)) :=
  c1 ← ax_plot t Is "Infected";
  c2 ← ax_plot t Ds "Dead";
  c3 ← ax_plot t (fit_data self) "True Dead";
  Some [c1; c2; c3].

(** The inner function [set_ax_no_truedead] of [plot]. *)
Definition set_ax_no_truedead (self : SimpleCovidModel) (t : list R)
    (Ss Is Rs Ds : list R) : option (list (string * list R)) :=
  c1 ← ax_plot t Is "Infected";
  c2 ← ax_plot t Ds "Dead";
  Some [c1; c2].

Section Pipeline.

Context `{Numerics}.

(** [SimpleCovidModel.predict]; a missing key raises [KeyError]. *)
Definition predict (self : SimpleCovidModel)
    : option (list R * list R * list R * list R) :=
  beta_a ← params self !! "beta_a";
  beta_b ← params self !! "beta_b";
  beta_k ← params self !! "beta_k";
  slipthrough ← params self !! "slipthrough";
  lockdown_a ← params self !! "lockdown_a";
  lockdown_b ← params self !! "lockdown_b";
  gamma ← params self !! "gamma";
  rho ← params self !! "rho";
  let ret :=
    odeint (deriv_of self) (y0 self) (t self)
      (float_of beta_a, float_of beta_b, float_of beta_k,
       float_of slipthrough, float_of lockdown_a, float_of lockdown_b,
       float_of gamma, float_of rho) in
  Some (transpose ret).

(** [SimpleCovidModel.fitter]: the whole Dead sequence, [ret.T[3]]. *)
Definition fitter (self : SimpleCovidModel) (x : list R)
    (beta_a beta_b beta_k slipthrough lockdown_a lockdown_b gamma rho : R)
    : list R :=
  let ret :=
    odeint (deriv_of self) (y0 self) (t self)
      (beta_a, beta_b, beta_k, slipthrough,
       lockdown_a, lockdown_b, gamma, rho) in
  dead <$> ret.

(** [lmfit.Model(self.fitter)]. *)
Definition fitter_model (self : SimpleCovidModel) : lmfit.Model :=
  lmfit.mkModel
    (fun x kw =>
       beta_a ← kw !! "beta_a";
       beta_b ← kw !! "beta_b";
       beta_k ← kw !! "beta_k";
       slipthrough ← kw !! "slipthrough";
       lockdown_a ← kw !! "lockdown_a";
       lockdown_b ← kw !! "lockdown_b";
       gamma ← kw !! "gamma";
       rho ← kw !! "rho";
       Some (lmfit.Array1
               (fitter self x beta_a beta_b beta_k slipthrough
                  lockdown_a lockdown_b gamma rho)))
    ["beta_a"; "beta_b"; "beta_k"; "slipthrough";
     "lockdown_a"; "lockdown_b"; "gamma"; "rho"].

(** [SimpleCovidModel.fit].  The printed report is not modelled. *)
Definition fit (self : SimpleCovidModel) : option SimpleCovidModel :=
  let mod_ := fitter_model self in
  let params_ := make_params mod_ in
  let x_data := t self in
  let y_data := fit_data self in
  beta_a ← params self !! "beta_a";
  beta_b ← params self !! "beta_b";
  beta_k ← params self !! "beta_k";
  slipthrough ← params self !! "slipthrough";
  lockdown_a ← params self !! "lockdown_a";
  lockdown_b ← params self !! "lockdown_b";
  gamma ← params self !! "gamma";
  rho ← params self !! "rho";
  result ← Model_fit mod_ y_data params_ "least_squares" x_data
    (list_to_map
       [("beta_a", beta_a); ("beta_b", beta_b); ("beta_k", beta_k);
        ("slipthrough", slipthrough); ("lockdown_a", lockdown_a);
        ("lockdown_b", lockdown_b); ("gamma", gamma); ("rho", rho)]);
  Some (set_params self (PyParameter <$> result)).

(** [SimpleCovidModel.optimizer]: [ret.T[3][-1]]; indexing an empty
    sequence raises [IndexError]. *)
Definition optimizer (self : SimpleCovidModel) (x : list R)
    (lockdown_a lockdown_b : R) : option R :=
  beta_a ← params self !! "beta_a";
  beta_b ← params self !! "beta_b";
  beta_k ← params self !! "beta_k";
  slipthrough ← params self !! "slipthrough";
  gamma ← params self !! "gamma";
  rho ← params self !! "rho";
  let ret :=
    odeint (deriv_of self) (y0 self) (t self)
      (float_of beta_a, float_of beta_b, float_of beta_k,
       float_of slipthrough, lockdown_a, lockdown_b,
       float_of gamma, float_of rho) in
  totaldeaths ← last (dead <$> ret);
  Some totaldeaths.

(** [lmfit.Model(self.optimizer)]. *)
Definition optimizer_model (self : SimpleCovidModel) : lmfit.Model :=
  lmfit.mkModel
    (fun x kw =>
       lockdown_a ← kw !! "lockdown_a";
       lockdown_b ← kw !! "lockdown_b";
       lmfit.Scalar <$> optimizer self x lockdown_a lockdown_b)
    ["lockdown_a"; "lockdown_b"].

(** The local [params] of [optimize], after its two [add] calls. *)
Definition optimize_guess : lmfit.Params :=
  lmfit.add (lmfit.add ∅ "lockdown_a" 0 1 0.2) "lockdown_b" 0 1 0.2.

(** [SimpleCovidModel.optimize].  The two stores at the end read the local
    [params], not [result.params]. *)
Definition optimize (self : SimpleCovidModel) : option SimpleCovidModel :=
  let mod_ := optimizer_model self in
  let params_ := optimize_guess in
  let x_data := t self in
  let y_data := fit_data self in
  lockdown_a ← params self !! "lockdown_a";
  lockdown_b ← params self !! "lockdown_b";
  result ← Model_fit mod_ y_data params_ "least_squares" x_data
    (list_to_map [("lockdown_a", lockdown_a); ("lockdown_b", lockdown_b)]);
  new_a ← params_ !! "lockdown_a";
  let self :=
    set_params self (<["lockdown_a" := PyParameter new_a]> (params self)) in
  new_b ← params_ !! "lockdown_b";
  Some
    (set_params self (<["lockdown_b" := PyParameter new_b]> (params self))).

(** [SimpleCovidModel.plot]: the three axes it fills, in order, and the
    model as the calls to [fit] and [optimize] leave it.  The window shown
    by [plt.show()] is not modelled. *)
Definition plot (self : SimpleCovidModel)
    : option (Axes * Axes * Axes * SimpleCovidModel) :=
  let t := t self in
  '(Ss, Is, Rs, Ds) ← predict self;
  c1 ← set_ax self t Ss Is Rs Ds;
  let ax1 := mkAxes "before fitting" c1 in
  self ← fit self;
  '(Ss, Is, Rs, Ds) ← predict self;
  c2 ← set_ax self t Ss Is Rs Ds;
  let ax2 := mkAxes "after fitting" c2 in
  self ← optimize self;
  '(Ss, Is, Rs, Ds) ← predict self;
  c3 ← set_ax_no_truedead self t Ss Is Rs Ds;
  let ax3 := mkAxes "after optimizing" c3 in
  Some (ax1, ax2, ax3, self).

End Pipeline.

(** ** Facts about the rate functions *)

Lemma logistic_denom_pos (x : R) : 0 < 1 + exp x.
Proof. pose proof (exp_pos x). lra. Qed.

Lemma lockdown_pos (a b t : R) : 0 < lockdown a b t.
Proof.
  unfold lockdown. apply Rdiv_lt_0_compat; [lra | apply logistic_denom_pos].
Qed.

Lemma lockdown_lt_1 (a b t : R) : lockdown a b t < 1.
Proof.
  unfold lockdown.
  pose proof (exp_pos (a + b * t)) as He.
  apply (Rmult_lt_reg_r (1 + exp (a + b * t))); [lra |].
  unfold Rdiv. rewrite Rmult_assoc, Rinv_l by lra. lra.
Qed.

Lemma lockdown_complement (a b t : R) :
  1 - lockdown a b t = exp (a + b * t) / (1 + exp (a + b * t)).
Proof.
  unfold lockdown. pose proof (exp_pos (a + b * t)). field. lra.
Qed.

Lemma beta_nonneg (a b k t : R) : 0 <= k -> 0 <= beta a b k t.
Proof.
  intros Hk. unfold beta, Rdiv.
  apply Rmult_le_pos; [exact Hk |].
  left. apply Rinv_0_lt_compat, logistic_denom_pos.
Qed.

Lemma beta_le_scale (a b k t : R) : 0 <= k -> beta a b k t <= k.
Proof.
  intros Hk. unfold beta.
  pose proof (exp_pos (a + b * t)) as He.
  apply (Rmult_le_reg_r (1 + exp (a + b * t))); [lra |].
  unfold Rdiv. rewrite Rmult_assoc, Rinv_l by lra. nra.
Qed.

(** The logistic curve is below [eps] once its exponent passes [1 / eps]. *)
Lemma logistic_small (x eps : R) :
  0 < eps -> / eps < x -> 1 / (1 + exp x) < eps.
Proof.
  intros Heps Hx.
  assert (0 < / eps) as Hi by (apply Rinv_0_lt_compat; exact Heps).
  pose proof (exp_ineq1_le x) as He.
  assert (eps * / eps = 1) as Hone by (apply Rinv_r; lra).
  apply (Rmult_lt_reg_r (1 + exp x)); [lra |].
  unfold Rdiv. rewrite Rmult_assoc, Rinv_l by lra.
  nra.
Qed.

(** Its complement is below [eps] once the exponent is under [- 1 / eps]. *)
Lemma logistic_complement_small (x eps : R) :
  0 < eps -> x < - / eps -> exp x / (1 + exp x) < eps.
Proof.
  intros Heps Hx.
  assert (0 < / eps) as Hi by (apply Rinv_0_lt_compat; exact Heps).
  pose proof (exp_pos x) as Hp.
  pose proof (exp_ineq1_le (- x)) as He.
  assert (exp x * exp (- x) = 1) as Hinv
    by (rewrite <- exp_plus, Rplus_opp_r; apply exp_0).
  assert (eps * / eps = 1) as Hone by (apply Rinv_r; lra).
  apply (Rmult_lt_reg_r (1 + exp x)); [lra |].
  unfold Rdiv. rewrite Rmult_assoc, Rinv_l by lra.
  assert (exp x * (/ eps) < 1) by nra.
  nra.
Qed.

Lemma lockdown_tends_to_0 (a b : R) :
  0 < b -> tends_to_at_plus_infinity (lockdown a b) 0.
Proof.
  intros Hb eps Heps. exists ((/ eps - a) / b). intros t Ht.
  pose proof (lockdown_pos a b t) as Hpos.
  rewrite Rminus_0_r, Rabs_pos_eq by lra.
  apply logistic_small; [exact Heps |].
  apply (Rmult_lt_compat_r b) in Ht; [| exact Hb].
  unfold Rdiv in Ht. rewrite Rmult_assoc, Rinv_l in Ht by lra. lra.
Qed.

Lemma lockdown_tends_to_1 (a b : R) :
  0 < b -> tends_to_at_minus_infinity (lockdown a b) 1.
Proof.
  intros Hb eps Heps. exists ((- / eps - a) / b). intros t Ht.
  pose proof (lockdown_lt_1 a b t) as Hlt.
  rewrite Rabs_left by lra.
  replace (- (lockdown a b t - 1)) with (1 - lockdown a b t) by ring.
  rewrite lockdown_complement.
  apply logistic_complement_small; [exact Heps |].
  apply (Rmult_lt_compat_r b) in Ht; [| exact Hb].
  unfold Rdiv in Ht. rewrite Rmult_assoc, Rinv_l in Ht by lra. lra.
Qed.

(** The four rates always add up to the imbalance between what leaves
    Susceptible and what enters Infected. *)
Lemma deriv_total (N : R) (y : vec4) (t : R)
    (beta_a beta_b beta_k slipthrough lockdown_a lockdown_b gamma rho : R) :
  total (deriv N y t beta_a beta_b beta_k slipthrough
           lockdown_a lockdown_b gamma rho)
  = beta beta_a beta_b beta_k t
    * (1 + 2 * slipthrough - 2 * lockdown lockdown_a lockdown_b t)
    * susceptible y * infected y / N.
Proof.
  destruct y as [[[Sc Ic] Rc] Dc].
  unfold total, deriv, infected, susceptible, Rdiv.
  simpl. ring.
Qed.

(** The Dead rate is non-negative at a state with non-negative [I]. *)
Lemma dead_rate_nonneg (N : R) (y : vec4) (t : R)
    (beta_a beta_b beta_k slipthrough lockdown_a lockdown_b gamma rho : R) :
  0 <= gamma -> 0 <= rho -> 0 <= infected y ->
  0 <= dead (deriv N y t beta_a beta_b beta_k slipthrough
               lockdown_a lockdown_b gamma rho).
Proof.
  destruct y as [[[Sc Ic] Rc] Dc]. unfold dead, infected, deriv. simpl.
  intros Hg Hr Hi.
  apply Rmult_le_pos; [apply Rmult_le_pos |]; assumption.
Qed.

(** Both terms of the Infected rate carry the factor [I]. *)
Lemma infected_rate_factor (N : R) (y : vec4) (t : R)
    (beta_a beta_b beta_k slipthrough lockdown_a lockdown_b gamma rho : R) :
  infected (deriv N y t beta_a beta_b beta_k slipthrough
              lockdown_a lockdown_b gamma rho)
  = infected y
    * (/ N * (beta beta_a beta_b beta_k t
              * (1 + slipthrough - lockdown lockdown_a lockdown_b t)
              * susceptible y)
       - gamma).
Proof.
  destruct y as [[[Sc Ic] Rc] Dc]. unfold infected, susceptible, deriv, Rdiv.
  simpl. ring.
Qed.

(** The time-dependent part of the force of infection is continuous. *)
Lemma force_continuous (a b k s la lb u : R) :
  continuity_pt
    (fun t => beta a b k t * (1 + s - lockdown la lb t)) u.
Proof.
  unfold beta, lockdown.
  reg; match goal with |- 1 + exp ?x <> 0 => pose proof (exp_pos x); lra end.
Qed.

(** A solution of [f' = f * g] with continuous [g] keeps the sign of its
    initial value: [f * exp (- G)] is constant for a primitive [G] of [g]. *)
Lemma linear_ode_sign (f g : R -> R) (T : R) :
  (forall t, 0 <= t <= T -> derivable_pt_lim f t (f t * g t)) ->
  (forall t, 0 <= t <= T -> continuity_pt g t) ->
  0 <= f 0 -> forall t, 0 <= t <= T -> 0 <= f t.
Proof.
  intros Hf Hg H0 t Ht.
  assert (0 <= T) as HT by lra.
  destruct (@RiemannInt_P30 g 0 T HT Hg) as [G [HG _]].
  set (h := (f * comp exp (- G))%F).
  assert (forall c, 0 <= c <= T -> derivable_pt_lim h c ((fun _ => 0) c))
    as Hh.
  { intros c Hc. destruct (HG c Hc) as [pr Hpr].
    replace 0 with (f c * g c * comp exp (- G)%F c
                    + f c * (exp ((- G)%F c) * - g c)).
    - apply derivable_pt_lim_mult; [apply Hf, Hc |].
      apply derivable_pt_lim_comp; [| apply derivable_pt_lim_exp].
      apply derivable_pt_lim_opp. rewrite Hpr.
      apply (derive_pt_eq_1 G c _ pr). reflexivity.
    - unfold comp, opp_fct. ring. }
  assert (h t = h 0) as Hconst.
  { destruct (Req_dec t 0) as [-> | Hne]; [reflexivity |].
    destruct (MVT_cor2 h (fun _ => 0) 0 t) as (c & Hc & _).
    - lra.
    - intros c Hc. apply Hh. lra.
    - lra. }
  unfold h, mult_fct, comp, opp_fct in Hconst.
  assert (f t = f 0 * exp (- G 0) * exp (G t)) as ->.
  { rewrite <- Hconst, Rmult_assoc, <- exp_plus.
    replace (- G t + G t) with 0 by ring. rewrite exp_0. ring. }
  pose proof (exp_pos (- G 0)). pose proof (exp_pos (G t)).
  apply Rmult_le_pos; [apply Rmult_le_pos |]; lra.
Qed.

(** A function with non-negative derivative on [[0, T]] does not decrease
    there. *)
Lemma nondecreasing_on (f f' : R -> R) (T : R) :
  (forall t, 0 <= t <= T -> derivable_pt_lim f t (f' t)) ->
  (forall t, 0 <= t <= T -> 0 <= f' t) ->
  forall t1 t2, 0 <= t1 -> t1 <= t2 -> t2 <= T -> f t1 <= f t2.
Proof.
  intros Hf Hpos t1 t2 H1 H12 H2.
  destruct (Req_dec t1 t2) as [-> | Hne]; [lra |].
  destruct (MVT_cor2 f f' t1 t2) as (c & Hc & Hin).
  - lra.
  - intros c Hc. apply Hf. lra.
  - assert (0 <= f' c) by (apply Hpos; lra).
    assert (0 <= f' c * (t2 - t1)) by (apply Rmult_le_pos; lra).
    lra.
Qed.

(** Along an exact trajectory the infected stay non-negative. *)
Lemma infected_stay_nonneg (self : SimpleCovidModel)
    (beta_a beta_b beta_k slipthrough lockdown_a lockdown_b gamma rho : R)
    (y : R -> vec4) (T : R) :
  exact_trajectory self
    (beta_a, beta_b, beta_k, slipthrough, lockdown_a, lockdown_b, gamma, rho)
    y T ->
  0 <= infected (y 0) ->
  forall t, 0 <= t <= T -> 0 <= infected (y t).
Proof.
  intros Hy H0.
  set (force := fun u => beta beta_a beta_b beta_k u
                         * (1 + slipthrough - lockdown lockdown_a lockdown_b u)).
  set (Sf := fun u => susceptible (y u)).
  set (g := (mult_real_fct (/ N self) (force * Sf) - fct_cte gamma)%F).
  apply (linear_ode_sign (fun u => infected (y u)) g T).
  - intros t Ht. destruct (Hy t Ht) as (_ & HI & _).
    unfold deriv_of in HI. rewrite infected_rate_factor in HI.
    unfold g, minus_fct, mult_real_fct, mult_fct, fct_cte, force, Sf.
    exact HI.
  - intros t Ht. destruct (Hy t Ht) as (HS & _).
    apply continuity_pt_minus; [| apply continuity_pt_const; intros ? ?; reflexivity].
    apply continuity_pt_scal, continuity_pt_mult.
    + apply force_continuous.
    + apply derivable_continuous_pt. eexists. exact HS.
  - exact H0.
Qed.

(** The exponential decay and its complement, differentiated. *)
Lemma exp_decay_derivative (k t : R) :
  derivable_pt_lim (fun u => exp (- k * u)) t (- k * exp (- k * t)).
Proof.
  replace (- k * exp (- k * t)) with (exp (- k * id t) * (- k * 1))
    by (unfold id; ring).
  apply (derivable_pt_lim_comp (mult_real_fct (- k) id) exp).
  - apply derivable_pt_lim_scal, derivable_pt_lim_id.
  - apply derivable_pt_lim_exp.
Qed.

Lemma saturation_derivative (c k t : R) :
  derivable_pt_lim (fun u => c * (1 - exp (- k * u))) t
    (c * k * exp (- k * t)).
Proof.
  replace (c * k * exp (- k * t)) with (c * (0 - - k * exp (- k * t)))
    by ring.
  apply (derivable_pt_lim_scal
           (fct_cte 1 - (fun u => exp (- k * u)))%F c t).
  apply derivable_pt_lim_minus;
    [apply derivable_pt_lim_const | apply exp_decay_derivative].
Qed.

(** With [beta_k = 0] the decay is an exact trajectory of every model. *)
Lemma decay_exact (self : SimpleCovidModel)
    (beta_a beta_b slipthrough lockdown_a lockdown_b gamma rho T : R) :
  exact_trajectory self
    (beta_a, beta_b, 0, slipthrough, lockdown_a, lockdown_b, gamma, rho)
    (decay gamma rho) T.
Proof.
  intros t _. unfold deriv_of, deriv, decay, beta, susceptible, infected,
    recovered, dead. simpl. repeat split.
  - match goal with |- derivable_pt_lim _ _ ?v =>
      replace v with 0 by (unfold Rdiv; ring) end.
    apply (derivable_pt_lim_const 999).
  - match goal with |- derivable_pt_lim _ _ ?v =>
      replace v with (- gamma * exp (- gamma * t)) by (unfold Rdiv; ring) end.
    apply exp_decay_derivative.
  - apply saturation_derivative.
  - apply saturation_derivative.
Qed.

(** ** The claims about the rate functions and the derivative *)

(** C1: for every state, time and parameter values, [deriv] returns the
    four rates of the specification: the infection flow scaled by
    [lockdown - slipthrough] out of Susceptible, by
    [1 + slipthrough - lockdown] into Infected, minus the removal [gamma * I],
    which is split by [rho] between Recovered and Dead. *)
Theorem deriv_returns_spec_rates (N : R) (y : vec4) (t : R)
    (beta_a beta_b beta_k slipthrough lockdown_a lockdown_b gamma rho : R) :
  deriv N y t beta_a beta_b beta_k slipthrough lockdown_a lockdown_b gamma rho
  = deriv_spec N y t beta_a beta_b beta_k slipthrough
      lockdown_a lockdown_b gamma rho.
Proof.
  destruct y as [[[Sc Ic] Rc] Dc]. unfold deriv, deriv_spec.
  repeat f_equal; unfold Rdiv; ring.
Qed.

(** C2, on a model of 1000 people with [slipthrough = 0.5]: at the state
    [(500, 500, 0, 0)] the four rates returned by [deriv] add up to 50, not
    to zero; the trajectory [(500, 500, 49 t, t)] is an exact solution from
    that state, and its total is [N + 50 t]: the population is not
    conserved. *)
Theorem population_drifts :
  total (deriv_of drift_model (y0 drift_model) 0 drift_args) = 50
  /\ total (deriv_of drift_model (y0 drift_model) 0 drift_args) <> 0
  /\ drift 0 = y0 drift_model
  /\ (forall T, exact_trajectory drift_model drift_args drift T)
  /\ (forall t, total (drift t) = N drift_model + 50 * t)
  /\ total (drift 1) <> N drift_model.
Proof.
  assert (exp 0 = 1) as E0 by apply exp_0.
  assert (forall u, exp (0 + 0 * u) = 1) as E
    by (intros u; replace (0 + 0 * u) with 0 by ring; exact E0).
  assert (total (deriv_of drift_model (y0 drift_model) 0 drift_args) = 50)
    as Htot.
  { unfold drift_args, deriv_of. rewrite deriv_total.
    unfold beta, lockdown, infected, susceptible. simpl.
    rewrite !E. lra. }
  split; [exact Htot |]. split; [rewrite Htot; lra |]. split.
  { unfold drift. simpl. repeat f_equal; lra. }
  split; [| split].
  - intros T t _.
    unfold drift_args, deriv_of, deriv, drift, beta, lockdown, susceptible,
      infected, recovered, dead. simpl. rewrite !E. repeat split.
    + match goal with |- derivable_pt_lim _ _ ?v =>
        replace v with 0 by lra end.
      apply (derivable_pt_lim_const 500).
    + match goal with |- derivable_pt_lim _ _ ?v =>
        replace v with 0 by lra end.
      apply (derivable_pt_lim_const 500).
    + match goal with |- derivable_pt_lim _ _ ?v =>
        replace v with (49 * 1) by lra end.
      apply (derivable_pt_lim_scal id 49 t), derivable_pt_lim_id.
    + match goal with |- derivable_pt_lim _ _ ?v =>
        replace v with 1 by lra end.
      apply derivable_pt_lim_id.
  - intros t. unfold total, drift. simpl. lra.
  - unfold total, drift. simpl. lra.
Qed.

(** C9: with [gamma >= 0] and [rho >= 0], the Dead rate returned by [deriv]
    is non-negative at every state with [I >= 0] and every time, and the
    Infected rate is [I] times a factor; so along every exact trajectory that
    starts with [I >= 0] the infected stay non-negative and the Dead
    compartment never decreases. *)
Theorem dead_non_decreasing (self : SimpleCovidModel)
    (beta_a beta_b beta_k slipthrough lockdown_a lockdown_b gamma rho : R) :
  0 <= gamma -> 0 <= rho ->
  (forall (y : vec4) (t : R),
     0 <= infected y ->
     0 <= dead (deriv (N self) y t beta_a beta_b beta_k slipthrough
                  lockdown_a lockdown_b gamma rho)
     /\ infected (deriv (N self) y t beta_a beta_b beta_k slipthrough
                    lockdown_a lockdown_b gamma rho)
        = infected y
          * (/ N self * (beta beta_a beta_b beta_k t
                         * (1 + slipthrough - lockdown lockdown_a lockdown_b t)
                         * susceptible y)
             - gamma))
  /\ (forall (y : R -> vec4) (T : R),
        exact_trajectory self
          (beta_a, beta_b, beta_k, slipthrough,
           lockdown_a, lockdown_b, gamma, rho) y T ->
        0 <= infected (y 0) ->
        (forall t, 0 <= t <= T -> 0 <= infected (y t))
        /\ (forall t1 t2, 0 <= t1 -> t1 <= t2 -> t2 <= T ->
                          dead (y t1) <= dead (y t2))).
Proof.
  intros Hg Hr. split.
  - intros y t Hi. split.
    + apply dead_rate_nonneg; assumption.
    + apply infected_rate_factor.
  - intros y T Hy H0.
    pose proof (infected_stay_nonneg _ _ _ _ _ _ _ _ _ _ _ Hy H0) as Hpos.
    split; [exact Hpos |].
    apply (nondecreasing_on (fun u => dead (y u))
             (fun u => dead (deriv_of self (y u) u
                (beta_a, beta_b, beta_k, slipthrough,
                 lockdown_a, lockdown_b, gamma, rho)))).
    + intros t Ht. apply (Hy t Ht).
    + intros t Ht. apply dead_rate_nonneg; auto.
Qed.

Lemma dead_non_decreasing_witness :
  0 <= 0.1 /\ 0 <= 0.02
  /\ 0 <= dead (deriv (N sample_model) (999, 1, 0, 0) 0
                  0 0 0.4 0 0 0 0.1 0.02)
  /\ (forall t, 0 <= t <= 50 -> 0 <= infected (decay 0.1 0.02 t))
  /\ (forall t1 t2, 0 <= t1 -> t1 <= t2 -> t2 <= 50 ->
                    dead (decay 0.1 0.02 t1) <= dead (decay 0.1 0.02 t2)).
Proof.
  assert (0 <= 0.1) as Hg by lra. assert (0 <= 0.02) as Hr by lra.
  split; [exact Hg |]. split; [exact Hr |]. split.
  - apply (dead_non_decreasing sample_model 0 0 0.4 0 0 0 0.1 0.02 Hg Hr).
    unfold infected. simpl. lra.
  - apply (dead_non_decreasing sample_model 0 0 0 0 0 0 0.1 0.02 Hg Hr).
    + apply decay_exact.
    + unfold infected, decay. simpl. left. apply exp_pos.
Defined.

(** C10, as stated, fails on binary64 numbers: [beta(1, 2, 3, 0.5)] is
    [0.35760876606635267] and [3 * lockdown(1, 2, 0.5)] is
    [0.35760876606635261]; dividing 3 by the denominator and multiplying 3
    by its rounded inverse differ in the last place. *)
Lemma transmission_not_scaled_in_binary64 :
  binary64.beta (H := binary64.numpy) 1 2 3 0.5
  = 0x1.6e30fe0c12543p-2%float
  /\ (3 * binary64.lockdown (H := binary64.numpy) 1 2 0.5)%float
     = 0x1.6e30fe0c12542p-2%float
  /\ binary64.beta (H := binary64.numpy) 1 2 3 0.5
     <> (3 * binary64.lockdown (H := binary64.numpy) 1 2 0.5)%float.
Proof.
  split; [reflexivity |]. split; [reflexivity |].
  intros E.
  assert ((binary64.beta (H := binary64.numpy) 1 2 3 0.5
           =? 3 * binary64.lockdown (H := binary64.numpy) 1 2 0.5)%float
          = false) as Hne by reflexivity.
  rewrite E in Hne. vm_compute in Hne. discriminate.
Qed.

(** C10, amended: in exact arithmetic the transmission rate is the
    intervention intensity with the same shape parameters scaled by
    [beta_k]; on binary64 numbers the two are the same computation, hence
    equal, for [beta_k = 1], whatever [np.exp] returns. *)
Theorem transmission_scaled_up_to_rounding :
  (forall a b k t : R, beta a b k t = k * lockdown a b t)
  /\ (forall (libm : binary64.Libm) (a b t : float),
        binary64.beta a b 1 t = binary64.lockdown a b t).
Proof.
  split.
  - intros a b k t. unfold beta, lockdown, Rdiv. ring.
  - intros libm a b t. reflexivity.
Qed.

(** C7, as stated, fails on binary64 numbers: with [beta_k = -1] the
    transmission rate at time 0 is [-0.5], outside [[0, beta_k]]; the
    intervention intensity is exactly 1 at [lockdown(0, -1, 40)], where
    [exp (-40)] is lost in [1 + exp (-40)], and exactly 0 at
    [lockdown(0, 1, 1000)], where [exp] overflows. *)
Lemma rate_bounds_fail_in_binary64 :
  binary64.beta (H := binary64.numpy) 0 0 (-1) 0 = (-0.5)%float
  /\ (0 <=? binary64.beta (H := binary64.numpy) 0 0 (-1) 0)%float = false
  /\ binary64.lockdown (H := binary64.numpy) 0 (-1) 40 = 1%float
  /\ (binary64.lockdown (H := binary64.numpy) 0 (-1) 40 <? 1)%float = false
  /\ binary64.lockdown (H := binary64.numpy) 0 1 1000 = 0%float
  /\ (0 <? binary64.lockdown (H := binary64.numpy) 0 1 1000)%float = false.
Proof. repeat split; reflexivity. Qed.

(** C7, amended: for [beta_k >= 0] the transmission rate stays in
    [[0, beta_k]]; the intervention intensity stays in the closed interval
    [[0, 1]] for all parameters, and as a real function it tends to 1 as [t]
    goes to minus infinity and to 0 as [t] goes to plus infinity when
    [b > 0]. *)
Theorem rate_function_closed_bounds (a b k t : R) :
  0 <= k ->
  0 <= beta a b k t <= k
  /\ 0 <= lockdown a b t <= 1
  /\ (0 < b ->
      tends_to_at_minus_infinity (lockdown a b) 1
      /\ tends_to_at_plus_infinity (lockdown a b) 0).
Proof.
  intros Hk. repeat split.
  - apply beta_nonneg, Hk.
  - apply beta_le_scale, Hk.
  - left. apply lockdown_pos.
  - left. apply lockdown_lt_1.
  - apply lockdown_tends_to_1; assumption.
  - apply lockdown_tends_to_0; assumption.
Qed.

Lemma rate_function_closed_bounds_witness :
  0 <= 0.4
  /\ 0 <= beta 0 1 0.4 0 <= 0.4
  /\ 0 <= lockdown 0 1 0 <= 1
  /\ tends_to_at_minus_infinity (lockdown 0 1) 1
  /\ tends_to_at_plus_infinity (lockdown 0 1) 0.
Proof.
  assert (0 <= 0.4) as Hk by lra.
  destruct (rate_function_closed_bounds 0 1 0.4 0 Hk) as (Hb & Hl & Hlim).
  split; [exact Hk |]. split; [exact Hb |]. split; [exact Hl |].
  apply Hlim. lra.
Defined.

(** ** The time grid *)

Lemma linspace_length (start stop : R) (num : Z) (l : list R) :
  linspace start stop num = Some l -> length l = Z.to_nat num.
Proof.
  unfold linspace. destruct (num <? 0)%Z; [discriminate |].
  intros [= <-].
  destruct (1 <? num)%Z, (0 <? num - 1)%Z;
    rewrite ?length_insert, !length_fmap, length_seq; reflexivity.
Qed.

(** From two samples on, the last sample is [stop] itself. *)
Lemma linspace_last (start stop : R) (num : Z) (l : list R) :
  (1 < num)%Z -> linspace start stop num = Some l -> last l = Some stop.
Proof.
  intros Hnum Hl. pose proof (linspace_length _ _ _ _ Hl) as Hlen.
  unfold linspace in Hl.
  destruct (num <? 0)%Z eqn:Hneg; [discriminate |].
  apply Z.ltb_lt in Hnum as Hgt. rewrite Hgt in Hl.
  injection Hl as <-.
  rewrite last_lookup, length_insert.
  apply list_lookup_insert_eq.
  rewrite length_insert in Hlen. rewrite Hlen. lia.
Qed.

Lemma init_grid_last (N : R) (days : Z) (y0 : vec4)
    (params : gmap string pyval) (fit_data : list R) (self : SimpleCovidModel) :
  (1 < days)%Z -> init N days y0 params fit_data = Some self ->
  last (t self) = Some (IZR days).
Proof.
  unfold init. intros Hd Hinit.
  destruct (linspace 0 (IZR days) days) as [l |] eqn:Hl; [| discriminate].
  injection Hinit as <-. simpl. eapply linspace_last; eassumption.
Qed.

(** From two days on, the grid is evenly spaced with step
    [days / (days - 1)]. *)
Lemma init_grid_lookup (N : R) (days : Z) (y0 : vec4)
    (params : gmap string pyval) (fit_data : list R) (self : SimpleCovidModel)
    (i : nat) :
  (1 < days)%Z -> init N days y0 params fit_data = Some self ->
  (i < Z.to_nat days)%nat ->
  exists v, t self !! i = Some v
            /\ v = INR i * (IZR days / IZR (days - 1)).
Proof.
  unfold init. intros Hd Hinit Hi.
  destruct (linspace 0 (IZR days) days) as [l |] eqn:Hl; [| discriminate].
  injection Hinit as <-. simpl.
  pose proof (linspace_length _ _ _ _ Hl) as Hlen.
  unfold linspace in Hl.
  destruct (days <? 0)%Z; [discriminate |].
  assert ((0 <? days - 1)%Z = true) as Hdiv by (apply Z.ltb_lt; lia).
  assert ((1 <? days)%Z = true) as Hnum by (apply Z.ltb_lt; lia).
  rewrite Hdiv, Hnum in Hl. injection Hl as <-. rewrite length_insert in Hlen.
  assert (IZR (days - 1) <> 0) as Hne by (apply not_0_IZR; lia).
  destruct (decide (i = pred (Z.to_nat days))) as [-> | Hlast].
  - exists (IZR days). split.
    + rewrite <- Hlen at 1. apply list_lookup_insert_eq. lia.
    + rewrite INR_IZR_INZ, Nat2Z.inj_pred, Z2Nat.id by lia.
      replace (Z.pred days) with (days - 1)%Z by lia. field. exact Hne.
  - eexists. split.
    + rewrite list_lookup_insert_ne by lia.
      rewrite !list_lookup_fmap, lookup_seq_lt by lia. reflexivity.
    + simpl. unfold Rdiv. ring.
Qed.

(** With a single day the grid is the single point 0. *)
Lemma init_grid_one_day (N : R) (y0 : vec4) (params : gmap string pyval)
    (fit_data : list R) :
  t <$> init N 1 y0 params fit_data = Some [0 * (1 - 0) + 0].
Proof. reflexivity. Qed.

(** C6, at [days = 2]: the constructor builds the grid [[0; 2]], whose last
    point is [days] itself and not below it. *)
Theorem time_grid_reaches_days (N : R) (y0 : vec4)
    (params : gmap string pyval) (fit_data : list R) :
  exists self,
    init N 2 y0 params fit_data = Some self
    /\ t self = [0; 2]
    /\ ~ Forall (fun x => x < IZR (days self)) (t self).
Proof.
  eexists. split; [reflexivity |]. simpl. split.
  - f_equal. lra.
  - intros Hall. apply Forall_cons in Hall as [_ Hall].
    apply Forall_cons in Hall as [Hlt _]. lra.
Qed.

(** ** Calibration and intervention optimization *)

Section Fitting.

Context `{Numerics}.

(** The local [params] of [optimize] holds the two bounded entries. *)
Lemma optimize_guess_lookup (name : string) :
  name = "lockdown_a" \/ name = "lockdown_b" ->
  optimize_guess !! name = Some (lmfit.mkParam 0.2 (Some 0) (Some 1)).
Proof. intros [-> | ->]; reflexivity. Qed.

(** What [optimize] leaves in the stored parameter set. *)
Lemma optimize_stores (self self' : SimpleCovidModel) :
  optimize self = Some self' ->
  params self' =
    <["lockdown_b" := PyParameter (lmfit.mkParam 0.2 (Some 0) (Some 1))]>
      (<["lockdown_a" := PyParameter (lmfit.mkParam 0.2 (Some 0) (Some 1))]>
         (params self)).
Proof.
  unfold optimize. intros Hopt.
  destruct (params self !! "lockdown_a") as [la |]; [| discriminate].
  destruct (params self !! "lockdown_b") as [lb |]; [| discriminate].
  simpl in Hopt.
  destruct (Model_fit _ _ _ _ _ _) as [result |]; [| discriminate].
  simpl in Hopt. rewrite !optimize_guess_lookup in Hopt by auto.
  simpl in Hopt. injection Hopt as <-. reflexivity.
Qed.

(** [optimize] succeeds when both keys are stored and the solver returns. *)
Lemma optimize_total (self : SimpleCovidModel) (la lb : pyval)
    (result : lmfit.Params) :
  params self !! "lockdown_a" = Some la ->
  params self !! "lockdown_b" = Some lb ->
  Model_fit (optimizer_model self) (fit_data self) optimize_guess
    "least_squares" (t self)
    (list_to_map [("lockdown_a", la); ("lockdown_b", lb)]) = Some result ->
  is_Some (optimize self).
Proof.
  intros Ha Hb Hfit. unfold optimize.
  rewrite Ha, Hb. cbn [mbind option_bind].
  rewrite Hfit. cbn [mbind option_bind].
  rewrite !optimize_guess_lookup by auto.
  eexists. reflexivity.
Qed.

(** [optimize] writes two keys; every other key keeps its value. *)
Lemma optimize_frame (self self' : SimpleCovidModel) (name : string) :
  optimize self = Some self' ->
  name <> "lockdown_a" -> name <> "lockdown_b" ->
  params self' !! name = params self !! name.
Proof.
  intros Hopt Ha Hb. apply optimize_stores in Hopt. rewrite Hopt.
  rewrite !lookup_insert_ne by congruence. reflexivity.
Qed.

(** [fit] succeeds when the eight keys are stored and the solver returns. *)
Lemma fit_total (self : SimpleCovidModel)
    (beta_a beta_b beta_k slipthrough lockdown_a lockdown_b gamma rho : pyval)
    (result : lmfit.Params) :
  params self !! "beta_a" = Some beta_a ->
  params self !! "beta_b" = Some beta_b ->
  params self !! "beta_k" = Some beta_k ->
  params self !! "slipthrough" = Some slipthrough ->
  params self !! "lockdown_a" = Some lockdown_a ->
  params self !! "lockdown_b" = Some lockdown_b ->
  params self !! "gamma" = Some gamma ->
  params self !! "rho" = Some rho ->
  Model_fit (fitter_model self) (fit_data self)
    (make_params (fitter_model self)) "least_squares" (t self)
    (list_to_map
       [("beta_a", beta_a); ("beta_b", beta_b); ("beta_k", beta_k);
        ("slipthrough", slipthrough); ("lockdown_a", lockdown_a);
        ("lockdown_b", lockdown_b); ("gamma", gamma); ("rho", rho)])
  = Some result ->
  fit self = Some (set_params self (PyParameter <$> result)).
Proof.
  intros H1 H2 H3 H4 H5 H6 H7 H8 Hfit. unfold fit.
  rewrite H1, H2, H3, H4, H5, H6, H7, H8. cbn [mbind option_bind].
  rewrite Hfit. reflexivity.
Qed.

(** C3: the objective of the intervention optimization is the last point
    of the Dead sequence that [fitter] computes for the stored parameters
    with the candidate [lockdown_a], [lockdown_b]: one number (or the
    error of a missing key or an empty sequence), whatever [x] is. *)
Theorem optimizer_returns_final_deaths (self : SimpleCovidModel)
    (x x' : list R) (lockdown_a lockdown_b : R) :
  optimizer self x lockdown_a lockdown_b
  = (beta_a ← params self !! "beta_a";
     beta_b ← params self !! "beta_b";
     beta_k ← params self !! "beta_k";
     slipthrough ← params self !! "slipthrough";
     gamma ← params self !! "gamma";
     rho ← params self !! "rho";
     last (fitter self x' (float_of beta_a) (float_of beta_b)
             (float_of beta_k) (float_of slipthrough)
             lockdown_a lockdown_b (float_of gamma) (float_of rho))).
Proof.
  unfold optimizer, fitter.
  destruct (params self !! "beta_a"); [simpl | reflexivity].
  destruct (params self !! "beta_b"); [simpl | reflexivity].
  destruct (params self !! "beta_k"); [simpl | reflexivity].
  destruct (params self !! "slipthrough"); [simpl | reflexivity].
  destruct (params self !! "gamma"); [simpl | reflexivity].
  destruct (params self !! "rho"); [simpl | reflexivity].
  destruct (last _); reflexivity.
Qed.

(** C5: when [fit] completes, the stored parameter set is the solver's
    result and nothing else: every name maps to what [result.params] holds
    for it, and is absent when the result has no such name.  The other
    attributes of the model are unchanged. *)
Theorem fit_replaces_params (self self' : SimpleCovidModel) :
  fit self = Some self' ->
  exists (kwargs : gmap string pyval) (result : lmfit.Params),
    (forall name, name ∈ lmfit.param_names (fitter_model self) ->
                  kwargs !! name = params self !! name)
    /\ Model_fit (fitter_model self) (fit_data self)
         (make_params (fitter_model self)) "least_squares" (t self) kwargs
       = Some result
    /\ (forall name, params self' !! name = PyParameter <$> result !! name)
    /\ (N self', days self', y0 self', t self', fit_data self')
       = (N self, days self, y0 self, t self, fit_data self).
Proof.
  unfold fit. intros Hfit.
  destruct (params self !! "beta_a") as [ba |] eqn:E1; [| discriminate].
  destruct (params self !! "beta_b") as [bb |] eqn:E2; [| discriminate].
  destruct (params self !! "beta_k") as [bk |] eqn:E3; [| discriminate].
  destruct (params self !! "slipthrough") as [s |] eqn:E4; [| discriminate].
  destruct (params self !! "lockdown_a") as [la |] eqn:E5; [| discriminate].
  destruct (params self !! "lockdown_b") as [lb |] eqn:E6; [| discriminate].
  destruct (params self !! "gamma") as [g |] eqn:E7; [| discriminate].
  destruct (params self !! "rho") as [r |] eqn:E8; [| discriminate].
  simpl in Hfit.
  destruct (Model_fit _ _ _ _ _ _) as [result |] eqn:Efit; [| discriminate].
  injection Hfit as <-.
  eexists _, result. split; [| split; [exact Efit | split]].
  - intros name Hname. simpl in Hname.
    repeat (apply elem_of_cons in Hname as [-> | Hname];
            [symmetry; assumption |]).
    apply elem_of_nil in Hname. contradiction.
  - intros name. simpl. apply lookup_fmap.
  - reflexivity.
Qed.


End Fitting.

(** ** Further properties of the rate functions *)

(** The intervention intensity never rises while [b * t] grows: it does
    not increase in time for [b >= 0] and does not decrease for [b <= 0]. *)
Theorem lockdown_monotone (a b t1 t2 : R) :
  b * t1 <= b * t2 -> lockdown a b t2 <= lockdown a b t1.
Proof.
  intros Hle. unfold lockdown, Rdiv. rewrite !Rmult_1_l.
  pose proof (exp_pos (a + b * t1)) as H1.
  assert (exp (a + b * t1) <= exp (a + b * t2)) as He.
  { destruct (Req_dec (b * t1) (b * t2)) as [-> | Hne]; [lra |].
    left. apply exp_increasing. lra. }
  apply Rinv_le_contravar; lra.
Qed.

Lemma lockdown_monotone_witness :
  1 * 1 <= 1 * 2 /\ lockdown 0 1 2 <= lockdown 0 1 1.
Proof.
  assert (1 * 1 <= 1 * 2) as Hle by lra.
  split; [exact Hle |]. apply (lockdown_monotone 0 1 1 2 Hle).
Defined.

(** Whatever the sign of the scale, the transmission rate lies between 0
    and [beta_k]. *)
Theorem beta_between (a b k t : R) :
  Rmin 0 k <= beta a b k t <= Rmax 0 k.
Proof.
  replace (beta a b k t) with (k * lockdown a b t)
    by (unfold beta, lockdown, Rdiv; ring).
  pose proof (lockdown_pos a b t) as Hp.
  pose proof (lockdown_lt_1 a b t) as Hl.
  unfold Rmin, Rmax. destruct (Rle_dec 0 k) as [Hk | Hk]; split; nra.
Qed.

(** ** Further invariants of exact trajectories *)

(** A function whose derivative vanishes on [[0, T]] is constant there. *)
Lemma constant_on (f : R -> R) (T : R) :
  (forall t, 0 <= t <= T -> derivable_pt_lim f t 0) ->
  forall t, 0 <= t <= T -> f t = f 0.
Proof.
  intros Hf t Ht.
  destruct (Req_dec t 0) as [-> | Hne]; [reflexivity |].
  destruct (MVT_cor2 f (fun _ => 0) 0 t) as (c & Hc & _).
  - lra.
  - intros c Hc. apply Hf. lra.
  - lra.
Qed.

(** Along an exact trajectory the infected obey a linear equation with a
    continuous coefficient. *)
Lemma infected_linear (self : SimpleCovidModel)
    (beta_a beta_b beta_k slipthrough lockdown_a lockdown_b gamma rho : R)
    (y : R -> vec4) (T : R) :
  exact_trajectory self
    (beta_a, beta_b, beta_k, slipthrough, lockdown_a, lockdown_b, gamma, rho)
    y T ->
  exists g : R -> R,
    (forall t, 0 <= t <= T ->
       derivable_pt_lim (fun u => infected (y u)) t (infected (y t) * g t))
    /\ (forall t, 0 <= t <= T -> continuity_pt g t).
Proof.
  intros Hy.
  set (force := fun u => beta beta_a beta_b beta_k u
                         * (1 + slipthrough - lockdown lockdown_a lockdown_b u)).
  set (Sf := fun u => susceptible (y u)).
  exists (mult_real_fct (/ N self) (force * Sf) - fct_cte gamma)%F. split.
  - intros t Ht. destruct (Hy t Ht) as (_ & HI & _).
    unfold deriv_of in HI. rewrite infected_rate_factor in HI.
    unfold minus_fct, mult_real_fct, mult_fct, fct_cte, force, Sf.
    exact HI.
  - intros t Ht. destruct (Hy t Ht) as (HS & _).
    apply continuity_pt_minus;
      [| apply continuity_pt_const; intros ? ?; reflexivity].
    apply continuity_pt_scal, continuity_pt_mult.
    + apply force_continuous.
    + apply derivable_continuous_pt. eexists. exact HS.
Qed.

(** The outflow of Susceptible carries the factor [S]. *)
Lemma susceptible_rate_factor (N : R) (y : vec4) (t : R)
    (beta_a beta_b beta_k slipthrough lockdown_a lockdown_b gamma rho : R) :
  susceptible (deriv N y t beta_a beta_b beta_k slipthrough
                 lockdown_a lockdown_b gamma rho)
  = susceptible y
    * (/ N * (- beta beta_a beta_b beta_k t
              * (lockdown lockdown_a lockdown_b t - slipthrough)
              * infected y)).
Proof.
  destruct y as [[[Sc Ic] Rc] Dc]. unfold infected, susceptible, deriv, Rdiv.
  simpl. ring.
Qed.

Lemma outflow_continuous (a b k s la lb u : R) :
  continuity_pt
    (fun t => - beta a b k t * (lockdown la lb t - s)) u.
Proof.
  unfold beta, lockdown.
  reg; match goal with |- 1 + exp ?x <> 0 => pose proof (exp_pos x); lra end.
Qed.

(** Along an exact trajectory the susceptible never become negative,
    whatever the parameters are. *)
Theorem susceptible_stay_nonneg (self : SimpleCovidModel)
    (beta_a beta_b beta_k slipthrough lockdown_a lockdown_b gamma rho : R)
    (y : R -> vec4) (T : R) :
  exact_trajectory self
    (beta_a, beta_b, beta_k, slipthrough, lockdown_a, lockdown_b, gamma, rho)
    y T ->
  0 <= susceptible (y 0) ->
  forall t, 0 <= t <= T -> 0 <= susceptible (y t).
Proof.
  intros Hy H0.
  set (force := fun u => - beta beta_a beta_b beta_k u
                         * (lockdown lockdown_a lockdown_b u - slipthrough)).
  set (If := fun u => infected (y u)).
  set (g := mult_real_fct (/ N self) (force * If)%F).
  apply (linear_ode_sign (fun u => susceptible (y u)) g T).
  - intros t Ht. destruct (Hy t Ht) as (HS & _).
    unfold deriv_of in HS. rewrite susceptible_rate_factor in HS.
    unfold g, mult_real_fct, mult_fct, force, If. exact HS.
  - intros t Ht. destruct (Hy t Ht) as (_ & HI & _).
    apply continuity_pt_scal, continuity_pt_mult.
    + apply outflow_continuous.
    + apply derivable_continuous_pt. eexists. exact HI.
  - exact H0.
Qed.

(** A population that starts without infected stays as it is: along an
    exact trajectory with [I(0) = 0] the infected stay at 0 and the other
    three compartments keep their initial values. *)
Theorem disease_free_stays (self : SimpleCovidModel)
    (beta_a beta_b beta_k slipthrough lockdown_a lockdown_b gamma rho : R)
    (y : R -> vec4) (T : R) :
  exact_trajectory self
    (beta_a, beta_b, beta_k, slipthrough, lockdown_a, lockdown_b, gamma, rho)
    y T ->
  infected (y 0) = 0 ->
  forall t, 0 <= t <= T -> y t = y 0.
Proof.
  intros Hy H0.
  destruct (infected_linear _ _ _ _ _ _ _ _ _ _ _ Hy) as (g & Hg & Hc).
  assert (forall t, 0 <= t <= T -> infected (y t) = 0) as HI.
  { intros t Ht. apply Rle_antisym.
    - apply Ropp_le_cancel. rewrite Ropp_0.
      apply (linear_ode_sign (fun u => - infected (y u)) g T);
        [| exact Hc | rewrite H0; lra | exact Ht].
      intros u Hu.
      replace (- infected (y u) * g u) with (- (infected (y u) * g u)) by ring.
      apply (derivable_pt_lim_opp (fun u => infected (y u))), Hg, Hu.
    - apply (linear_ode_sign (fun u => infected (y u)) g T);
        [exact Hg | exact Hc | rewrite H0; lra | exact Ht]. }
  assert (forall u, 0 <= u <= T ->
            deriv_of self (y u) u
              (beta_a, beta_b, beta_k, slipthrough,
               lockdown_a, lockdown_b, gamma, rho) = (0, 0, 0, 0)) as Hzero.
  { intros u Hu. specialize (HI u Hu).
    destruct (y u) as [[[Sc Ic] Rc] Dc]. unfold infected in HI. simpl in HI.
    subst Ic. unfold deriv_of, deriv, Rdiv. repeat f_equal; ring. }
  intros t Ht.
  assert (susceptible (y t) = susceptible (y 0)) as ES.
  { apply (constant_on (fun u => susceptible (y u)) T); [| exact Ht].
    intros u Hu. destruct (Hy u Hu) as (HS & _).
    rewrite (Hzero u Hu) in HS. exact HS. }
  assert (recovered (y t) = recovered (y 0)) as ER.
  { apply (constant_on (fun u => recovered (y u)) T); [| exact Ht].
    intros u Hu. destruct (Hy u Hu) as (_ & _ & HR & _).
    rewrite (Hzero u Hu) in HR. exact HR. }
  assert (dead (y t) = dead (y 0)) as ED.
  { apply (constant_on (fun u => dead (y u)) T); [| exact Ht].
    intros u Hu. destruct (Hy u Hu) as (_ & _ & _ & HD).
    rewrite (Hzero u Hu) in HD. exact HD. }
  assert (infected (y t) = infected (y 0)) as EI
    by (rewrite H0; apply HI, Ht).
  destruct (y t) as [[[S1 I1] R1] D1], (y 0) as [[[S0 I0] R0] D0].
  unfold susceptible, infected, recovered, dead in *. simpl in *.
  congruence.
Qed.

(** Deaths are a fixed share of the removed: along an exact trajectory the
    increase of Dead times [1 - rho] equals the increase of Recovered times
    [rho]. *)
Theorem death_share_invariant (self : SimpleCovidModel)
    (beta_a beta_b beta_k slipthrough lockdown_a lockdown_b gamma rho : R)
    (y : R -> vec4) (T : R) :
  exact_trajectory self
    (beta_a, beta_b, beta_k, slipthrough, lockdown_a, lockdown_b, gamma, rho)
    y T ->
  forall t, 0 <= t <= T ->
    (1 - rho) * (dead (y t) - dead (y 0))
    = rho * (recovered (y t) - recovered (y 0)).
Proof.
  intros Hy t Ht.
  set (h := (mult_real_fct (1 - rho) (fun u => dead (y u))
             - mult_real_fct rho (fun u => recovered (y u)))%F).
  assert (h t = h 0) as Hh.
  { apply (constant_on h T); [| exact Ht].
    intros u Hu. destruct (Hy u Hu) as (_ & _ & HR & HD).
    replace 0 with
      ((1 - rho) * dead (deriv_of self (y u) u
          (beta_a, beta_b, beta_k, slipthrough,
           lockdown_a, lockdown_b, gamma, rho))
       - rho * recovered (deriv_of self (y u) u
          (beta_a, beta_b, beta_k, slipthrough,
           lockdown_a, lockdown_b, gamma, rho))).
    - apply derivable_pt_lim_minus; apply derivable_pt_lim_scal; assumption.
    - destruct (y u) as [[[Sc Ic] Rc] Dc].
      unfold deriv_of, deriv, dead, recovered. simpl. ring. }
  unfold h, minus_fct, mult_real_fct in Hh. lra.
Qed.

(** With [gamma >= 0] and [rho <= 1] the Recovered compartment never
    decreases along an exact trajectory that starts with [I >= 0]. *)
Theorem recovered_non_decreasing (self : SimpleCovidModel)
    (beta_a beta_b beta_k slipthrough lockdown_a lockdown_b gamma rho : R)
    (y : R -> vec4) (T : R) :
  0 <= gamma -> rho <= 1 ->
  exact_trajectory self
    (beta_a, beta_b, beta_k, slipthrough, lockdown_a, lockdown_b, gamma, rho)
    y T ->
  0 <= infected (y 0) ->
  forall t1 t2, 0 <= t1 -> t1 <= t2 -> t2 <= T ->
                recovered (y t1) <= recovered (y t2).
Proof.
  intros Hg Hr Hy H0.
  pose proof (infected_stay_nonneg _ _ _ _ _ _ _ _ _ _ _ Hy H0) as Hpos.
  apply (nondecreasing_on (fun u => recovered (y u))
           (fun u => recovered (deriv_of self (y u) u
              (beta_a, beta_b, beta_k, slipthrough,
               lockdown_a, lockdown_b, gamma, rho)))).
  - intros t Ht. apply (Hy t Ht).
  - intros t Ht. specialize (Hpos t Ht).
    destruct (y t) as [[[Sc Ic] Rc] Dc].
    unfold deriv_of, deriv, recovered, infected in *. simpl in *.
    apply Rmult_le_pos; [apply Rmult_le_pos |]; lra.
Qed.

(** A population at rest is an exact trajectory of every model. *)
Lemma rest_exact (self : SimpleCovidModel) (args : args8) (T : R) :
  exact_trajectory self args rest T.
Proof.
  destruct args as [[[[[[[a b] k] s] la] lb] g] r].
  intros t _. unfold deriv_of, deriv, rest, susceptible, infected,
    recovered, dead. simpl.
  repeat split;
    match goal with |- derivable_pt_lim (fun _ => ?c) _ ?v =>
      replace v with 0 by (unfold Rdiv; ring);
      apply (derivable_pt_lim_const c)
    end.
Qed.

Lemma susceptible_stay_nonneg_witness :
  0 <= susceptible (decay 0.1 0.02 1).
Proof.
  apply (susceptible_stay_nonneg sample_model 0 0 0 0 0 0 0.1 0.02
           (decay 0.1 0.02) 50).
  - apply decay_exact.
  - unfold susceptible, decay. simpl. lra.
  - lra.
Defined.

Lemma disease_free_stays_witness :
  rest 1 = rest 0.
Proof.
  apply (disease_free_stays sample_model 0 0 0.4 0 0 0 0.1 0.02 rest 50).
  - apply rest_exact.
  - reflexivity.
  - lra.
Defined.

Lemma death_share_invariant_witness :
  (1 - 0.02) * (dead (decay 0.1 0.02 1) - dead (decay 0.1 0.02 0))
  = 0.02 * (recovered (decay 0.1 0.02 1) - recovered (decay 0.1 0.02 0)).
Proof.
  apply (death_share_invariant sample_model 0 0 0 0 0 0 0.1 0.02
           (decay 0.1 0.02) 50).
  - apply decay_exact.
  - lra.
Defined.

Lemma recovered_non_decreasing_witness :
  recovered (decay 0.1 0.02 1) <= recovered (decay 0.1 0.02 2).
Proof.
  apply (recovered_non_decreasing sample_model 0 0 0 0 0 0 0.1 0.02
           (decay 0.1 0.02) 50).
  - lra.
  - lra.
  - apply decay_exact.
  - unfold infected, decay. simpl. left. apply exp_pos.
  - lra.
  - lra.
  - lra.
Defined.

(** ** Further properties of the time grid *)

Lemma init_inv (n : R) (d : Z) (start : vec4)
    (p : gmap string pyval) (data : list R) :
  match init n d start p data with
  | None => (d < 0)%Z
  | Some self =>
      (0 <= d)%Z
      /\ length (t self) = Z.to_nat d
      /\ (params self, N self, days self, y0 self, fit_data self)
         = (p, n, d, start, data)
  end.
Proof.
  unfold init.
  destruct (linspace 0 (IZR d) d) as [l |] eqn:Hl; simpl.
  - split; [| split; [eapply linspace_length; exact Hl | reflexivity]].
    unfold linspace in Hl.
    destruct (d <? 0)%Z eqn:Hneg; [discriminate |].
    apply Z.ltb_ge in Hneg. exact Hneg.
  - unfold linspace in Hl.
    destruct (d <? 0)%Z eqn:Hneg; [| discriminate].
    apply Z.ltb_lt in Hneg. exact Hneg.
Qed.

(** The constructor fails for a negative number of days; when it
    succeeds, the number of days is not negative, the grid has that many
    points and the arguments are stored as given. *)
Theorem init_outcome (n : R) (d : Z) (start : vec4)
    (p : gmap string pyval) (data : list R) :
  ((d < 0)%Z -> init n d start p data = None)
  /\ (forall self,
        init n d start p data = Some self ->
        (0 <= d)%Z
        /\ length (t self) = Z.to_nat d
        /\ (params self, N self, days self, y0 self, fit_data self)
           = (p, n, d, start, data)).
Proof.
  pose proof (init_inv n d start p data) as Hinv. split.
  - intros Hneg. destruct (init n d start p data); [lia | reflexivity].
  - intros self Hself. rewrite Hself in Hinv. exact Hinv.
Qed.

Lemma time_grid_points_aux (N : R) (days : Z) (y0 : vec4)
    (params : gmap string pyval) (fit_data : list R) (self : SimpleCovidModel)
    (i : nat) (v : R) :
  (1 < days)%Z -> init N days y0 params fit_data = Some self ->
  t self !! i = Some v ->
  v = INR i * (IZR days / IZR (days - 1))
  /\ 1 < IZR days / IZR (days - 1).
Proof.
  intros Hd Hinit Hv.
  pose proof (init_inv N days y0 params fit_data) as Hout.
  rewrite Hinit in Hout. destruct Hout as (_ & Hlen & _).
  apply lookup_lt_Some in Hv as Hi. rewrite Hlen in Hi.
  destruct (init_grid_lookup _ _ _ _ _ _ i Hd Hinit Hi) as (w & Hw & ->).
  rewrite Hw in Hv. injection Hv as <-. split; [reflexivity |].
  assert (0 < IZR (days - 1)) as Hpos by (apply IZR_lt; lia).
  apply (Rmult_lt_reg_r (IZR (days - 1))); [exact Hpos |].
  unfold Rdiv. rewrite Rmult_assoc, Rinv_l by lra.
  rewrite minus_IZR. lra.
Qed.


(** The grid is strictly increasing and stays within [[0, days]]. *)
Theorem time_grid_increasing (N : R) (days : Z) (y0 : vec4)
    (params : gmap string pyval) (fit_data : list R) (self : SimpleCovidModel)
    (i j : nat) (vi vj : R) :
  init N days y0 params fit_data = Some self ->
  t self !! i = Some vi -> t self !! j = Some vj -> (i < j)%nat ->
  0 <= vi /\ vi < vj /\ vj <= IZR days.
Proof.
  intros Hinit Hvi Hvj Hij.
  pose proof (init_inv N days y0 params fit_data) as Hout.
  rewrite Hinit in Hout. destruct Hout as (Hd0 & Hlen & _).
  apply lookup_lt_Some in Hvj as Hj. rewrite Hlen in Hj.
  assert (1 < days)%Z as Hd by lia.
  destruct (time_grid_points_aux N days y0 params fit_data self i vi
              Hd Hinit Hvi) as [-> Hstep].
  destruct (time_grid_points_aux N days y0 params fit_data self j vj
              Hd Hinit Hvj) as [-> _].
  assert (0 < IZR (days - 1)) as Hpos by (apply IZR_lt; lia).
  assert (0 < IZR days / IZR (days - 1)) as Hq by lra.
  assert (0 <= INR i) as Hi0 by apply pos_INR.
  assert (INR i < INR j) as Hlt by (apply lt_INR; exact Hij).
  assert (INR j <= IZR (days - 1)) as Hle.
  { rewrite INR_IZR_INZ. apply IZR_le. lia. }
  repeat split.
  - apply Rmult_le_pos; lra.
  - apply Rmult_lt_compat_r; assumption.
  - apply (Rle_trans _ (IZR (days - 1) * (IZR days / IZR (days - 1)))).
    + apply Rmult_le_compat_r; lra.
    + right. field. lra.
Qed.


Lemma time_grid_increasing_witness :
  exists self vi vj,
    init 1000 3 (999, 1, 0, 0) sample_params [0; 0; 0] = Some self
    /\ t self !! 1%nat = Some vi /\ t self !! 2%nat = Some vj
    /\ 0 <= vi /\ vi < vj /\ vj <= IZR 3.
Proof.
  eexists _, _, _. split; [reflexivity |]. split; [reflexivity |].
  split; [reflexivity |].
  eapply (time_grid_increasing 1000 3 (999, 1, 0, 0) sample_params [0; 0; 0]
            _ 1 2); [reflexivity | reflexivity | reflexivity | lia].
Defined.

(** ** Simulation, calibration and plotting together *)

Section Composition.

Context `{Numerics}.

(** Solves membership of a literal name in a literal list of names. *)
Ltac in_names :=
  simpl; repeat first [apply list_elem_of_here | apply list_elem_of_further].

(** Refutes a missing name that is one of those looked up with success. *)
Ltac not_missing Hin Hmiss :=
  simpl in Hin;
  repeat (apply elem_of_cons in Hin as [-> | Hin]; [congruence |]);
  apply elem_of_nil in Hin; contradiction.

(** Lookups in the parameter set that [optimize] leaves. *)
Lemma optimize_lookup_other (m : gmap string pyval) (name : string) :
  name <> "lockdown_a" -> name <> "lockdown_b" ->
  <["lockdown_b" := stored_guess]> (<["lockdown_a" := stored_guess]> m)
  !! name = m !! name.
Proof. intros Ha Hb. rewrite !lookup_insert_ne by congruence. reflexivity. Qed.

Lemma optimize_lookup_own (m : gmap string pyval) :
  <["lockdown_b" := stored_guess]> (<["lockdown_a" := stored_guess]> m)
  !! "lockdown_a" = Some stored_guess
  /\ <["lockdown_b" := stored_guess]> (<["lockdown_a" := stored_guess]> m)
     !! "lockdown_b" = Some stored_guess.
Proof.
  split; [| apply lookup_insert_eq].
  rewrite lookup_insert_ne by discriminate. apply lookup_insert_eq.
Qed.

(** What a successful [optimize] returns. *)
Lemma optimize_result (self self' : SimpleCovidModel) :
  optimize self = Some self' ->
  is_Some (params self !! "lockdown_a")
  /\ is_Some (params self !! "lockdown_b")
  /\ self' = set_params self
               (<["lockdown_b" := stored_guess]>
                  (<["lockdown_a" := stored_guess]> (params self))).
Proof.
  unfold optimize. intros Hopt.
  destruct (params self !! "lockdown_a") as [la |]; [| discriminate].
  destruct (params self !! "lockdown_b") as [lb |]; [| discriminate].
  simpl in Hopt.
  destruct (Model_fit _ _ _ _ _ _) as [result |]; [| discriminate].
  simpl in Hopt. rewrite !optimize_guess_lookup in Hopt by auto.
  simpl in Hopt. injection Hopt as <-.
  split; [eexists; reflexivity |]. split; [eexists; reflexivity |].
  reflexivity.
Qed.

(** The objective reads six stored values and nothing else of the
    parameter set. *)
Lemma optimizer_frame (self : SimpleCovidModel) (p : gmap string pyval)
    (x x' : list R) (lockdown_a lockdown_b : R) :
  (forall name,
     name ∈ ["beta_a"; "beta_b"; "beta_k"; "slipthrough"; "gamma"; "rho"] ->
     p !! name = params self !! name) ->
  optimizer (set_params self p) x lockdown_a lockdown_b
  = optimizer self x' lockdown_a lockdown_b.
Proof.
  intros Hp. unfold optimizer. simpl.
  rewrite !Hp by in_names. reflexivity.
Qed.

(** The Dead sequence of [predict] is what [fitter] returns for the stored
    values, its last point is the objective of the intervention
    optimization at the stored intervention pair, and the four sequences
    have one length. *)
Theorem predict_dead_is_fitter (self : SimpleCovidModel)
    (Ss Is Rs Ds x : list R) :
  predict self = Some (Ss, Is, Rs, Ds) ->
  length Ss = length Ds /\ length Is = length Ds /\ length Rs = length Ds
  /\ exists beta_a beta_b beta_k slipthrough lockdown_a lockdown_b gamma rho,
       params self !! "beta_a" = Some beta_a
       /\ params self !! "beta_b" = Some beta_b
       /\ params self !! "beta_k" = Some beta_k
       /\ params self !! "slipthrough" = Some slipthrough
       /\ params self !! "lockdown_a" = Some lockdown_a
       /\ params self !! "lockdown_b" = Some lockdown_b
       /\ params self !! "gamma" = Some gamma
       /\ params self !! "rho" = Some rho
       /\ Ds = fitter self x (float_of beta_a) (float_of beta_b)
                 (float_of beta_k) (float_of slipthrough)
                 (float_of lockdown_a) (float_of lockdown_b)
                 (float_of gamma) (float_of rho)
       /\ optimizer self x (float_of lockdown_a) (float_of lockdown_b)
          = last Ds.
Proof.
  unfold predict, optimizer, fitter, transpose. intros Hp.
  destruct (params self !! "beta_a") as [ba |]; [| discriminate].
  destruct (params self !! "beta_b") as [bb |]; [| discriminate].
  destruct (params self !! "beta_k") as [bk |]; [| discriminate].
  destruct (params self !! "slipthrough") as [s |]; [| discriminate].
  destruct (params self !! "lockdown_a") as [la |]; [| discriminate].
  destruct (params self !! "lockdown_b") as [lb |]; [| discriminate].
  destruct (params self !! "gamma") as [g |]; [| discriminate].
  destruct (params self !! "rho") as [r |]; [| discriminate].
  simpl in Hp. injection Hp as <- <- <- <-.
  rewrite !length_fmap. repeat split.
  exists ba, bb, bk, s, la, lb, g, r. repeat split.
  simpl. destruct (last _); reflexivity.
Qed.

(** [predict] fails exactly when one of the eight parameter names is
    missing from the stored set. *)
Theorem predict_none_iff (self : SimpleCovidModel) :
  predict self = None
  <-> exists name,
        name ∈ lmfit.param_names (fitter_model self)
        /\ params self !! name = None.
Proof.
  unfold predict. split.
  - intros Hnone.
    destruct (params self !! "beta_a") eqn:E1;
      [| exists "beta_a"; split; [in_names | exact E1]].
    destruct (params self !! "beta_b") eqn:E2;
      [| exists "beta_b"; split; [in_names | exact E2]].
    destruct (params self !! "beta_k") eqn:E3;
      [| exists "beta_k"; split; [in_names | exact E3]].
    destruct (params self !! "slipthrough") eqn:E4;
      [| exists "slipthrough"; split; [in_names | exact E4]].
    destruct (params self !! "lockdown_a") eqn:E5;
      [| exists "lockdown_a"; split; [in_names | exact E5]].
    destruct (params self !! "lockdown_b") eqn:E6;
      [| exists "lockdown_b"; split; [in_names | exact E6]].
    destruct (params self !! "gamma") eqn:E7;
      [| exists "gamma"; split; [in_names | exact E7]].
    destruct (params self !! "rho") eqn:E8;
      [| exists "rho"; split; [in_names | exact E8]].
    discriminate.
  - intros (name & Hin & Hmiss).
    destruct (params self !! "beta_a") eqn:E1; [| reflexivity].
    destruct (params self !! "beta_b") eqn:E2; [| reflexivity].
    destruct (params self !! "beta_k") eqn:E3; [| reflexivity].
    destruct (params self !! "slipthrough") eqn:E4; [| reflexivity].
    destruct (params self !! "lockdown_a") eqn:E5; [| reflexivity].
    destruct (params self !! "lockdown_b") eqn:E6; [| reflexivity].
    destruct (params self !! "gamma") eqn:E7; [| reflexivity].
    destruct (params self !! "rho") eqn:E8; [| reflexivity].
    not_missing Hin Hmiss.
Qed.

(** The objective of the intervention optimization does not read the stored
    [lockdown_a] and [lockdown_b]: overwriting them leaves it unchanged. *)
Theorem optimizer_ignores_stored_lockdown (self : SimpleCovidModel)
    (va vb : pyval) (x : list R) (lockdown_a lockdown_b : R) :
  optimizer
    (set_params self
       (<["lockdown_b" := vb]> (<["lockdown_a" := va]> (params self))))
    x lockdown_a lockdown_b
  = optimizer self x lockdown_a lockdown_b.
Proof.
  apply optimizer_frame. intros name Hin.
  rewrite !lookup_insert_ne; [reflexivity | |];
    intros <-; simpl in Hin;
    repeat (apply elem_of_cons in Hin as [Hin | Hin]; [discriminate |]);
    apply elem_of_nil in Hin; contradiction.
Qed.

(** [fit] fails exactly when one of the eight names is missing from the
    stored set, or all are stored and the solver fails on them. *)
Theorem fit_none_iff (self : SimpleCovidModel) :
  fit self = None
  <-> (exists name,
         name ∈ lmfit.param_names (fitter_model self)
         /\ params self !! name = None)
      \/ (exists beta_a beta_b beta_k slipthrough
                 lockdown_a lockdown_b gamma rho,
            params self !! "beta_a" = Some beta_a
            /\ params self !! "beta_b" = Some beta_b
            /\ params self !! "beta_k" = Some beta_k
            /\ params self !! "slipthrough" = Some slipthrough
            /\ params self !! "lockdown_a" = Some lockdown_a
            /\ params self !! "lockdown_b" = Some lockdown_b
            /\ params self !! "gamma" = Some gamma
            /\ params self !! "rho" = Some rho
            /\ Model_fit (fitter_model self) (fit_data self)
                 (make_params (fitter_model self)) "least_squares" (t self)
                 (list_to_map
                    [("beta_a", beta_a); ("beta_b", beta_b);
                     ("beta_k", beta_k); ("slipthrough", slipthrough);
                     ("lockdown_a", lockdown_a); ("lockdown_b", lockdown_b);
                     ("gamma", gamma); ("rho", rho)])
               = None).
Proof.
  unfold fit. split.
  - intros Hnone.
    destruct (params self !! "beta_a") as [ba |] eqn:E1;
      [| left; exists "beta_a"; split; [in_names | exact E1]].
    destruct (params self !! "beta_b") as [bb |] eqn:E2;
      [| left; exists "beta_b"; split; [in_names | exact E2]].
    destruct (params self !! "beta_k") as [bk |] eqn:E3;
      [| left; exists "beta_k"; split; [in_names | exact E3]].
    destruct (params self !! "slipthrough") as [s |] eqn:E4;
      [| left; exists "slipthrough"; split; [in_names | exact E4]].
    destruct (params self !! "lockdown_a") as [la |] eqn:E5;
      [| left; exists "lockdown_a"; split; [in_names | exact E5]].
    destruct (params self !! "lockdown_b") as [lb |] eqn:E6;
      [| left; exists "lockdown_b"; split; [in_names | exact E6]].
    destruct (params self !! "gamma") as [g |] eqn:E7;
      [| left; exists "gamma"; split; [in_names | exact E7]].
    destruct (params self !! "rho") as [r |] eqn:E8;
      [| left; exists "rho"; split; [in_names | exact E8]].
    right. exists ba, bb, bk, s, la, lb, g, r.
    cbn [mbind option_bind] in Hnone.
    destruct (Model_fit _ _ _ _ _ _) eqn:Efit; [discriminate |].
    repeat split.
  - intros [(name & Hin & Hmiss) | Hsolver].
    + destruct (params self !! "beta_a") eqn:E1; [| reflexivity].
      destruct (params self !! "beta_b") eqn:E2; [| reflexivity].
      destruct (params self !! "beta_k") eqn:E3; [| reflexivity].
      destruct (params self !! "slipthrough") eqn:E4; [| reflexivity].
      destruct (params self !! "lockdown_a") eqn:E5; [| reflexivity].
      destruct (params self !! "lockdown_b") eqn:E6; [| reflexivity].
      destruct (params self !! "gamma") eqn:E7; [| reflexivity].
      destruct (params self !! "rho") eqn:E8; [| reflexivity].
      not_missing Hin Hmiss.
    + destruct Hsolver as (ba & bb & bk & s & la & lb & g & r & E1 & E2 & E3
                           & E4 & E5 & E6 & E7 & E8 & Efit).
      rewrite E1, E2, E3, E4, E5, E6, E7, E8. cbn [mbind option_bind].
      rewrite Efit. reflexivity.
Qed.

(** [optimize] fails exactly when [lockdown_a] or [lockdown_b] is missing
    from the stored set, or both are stored and the solver fails; the other
    six names are not needed. *)
Theorem optimize_none_iff (self : SimpleCovidModel) :
  optimize self = None
  <-> params self !! "lockdown_a" = None
      \/ params self !! "lockdown_b" = None
      \/ (exists lockdown_a lockdown_b,
            params self !! "lockdown_a" = Some lockdown_a
            /\ params self !! "lockdown_b" = Some lockdown_b
            /\ Model_fit (optimizer_model self) (fit_data self)
                 optimize_guess "least_squares" (t self)
                 (list_to_map
                    [("lockdown_a", lockdown_a); ("lockdown_b", lockdown_b)])
               = None).
Proof.
  split.
  - intros Hnone.
    destruct (params self !! "lockdown_a") as [la |] eqn:Ea; [| auto].
    destruct (params self !! "lockdown_b") as [lb |] eqn:Eb; [| auto].
    right. right. exists la, lb. repeat split.
    destruct (Model_fit (optimizer_model self) (fit_data self) optimize_guess
                "least_squares" (t self)
                (list_to_map [("lockdown_a", la); ("lockdown_b", lb)]))
      as [result |] eqn:Efit; [| reflexivity].
    destruct (optimize_total self la lb result Ea Eb Efit) as [s Hs].
    congruence.
  - unfold optimize. intros [Ea | [Eb | (la & lb & Ea & Eb & Efit)]].
    + rewrite Ea. reflexivity.
    + rewrite Eb. destruct (params self !! "lockdown_a"); reflexivity.
    + rewrite Ea, Eb. cbn [mbind option_bind]. rewrite Efit. reflexivity.
Qed.

(** [optimize] neither adds nor removes a parameter name, and it leaves the
    population size, the grid, the initial state and the observed series
    as they are. *)
Theorem optimize_keeps_keys (self self' : SimpleCovidModel) :
  optimize self = Some self' ->
  dom (params self') = dom (params self)
  /\ (N self', days self', y0 self', t self', fit_data self')
     = (N self, days self, y0 self, t self, fit_data self).
Proof.
  intros Hopt. apply optimize_result in Hopt as (Ha & Hb & ->).
  split; [| reflexivity]. simpl.
  apply elem_of_dom in Ha, Hb.
  rewrite !dom_insert_L. apply set_eq. intros name.
  rewrite !elem_of_union, !elem_of_singleton.
  split; [intros [-> | [-> | Hin]]; assumption | auto].
Qed.

(** Running [optimize] a second time changes nothing. *)
Theorem optimize_idempotent (self self1 self2 : SimpleCovidModel) :
  optimize self = Some self1 -> optimize self1 = Some self2 ->
  self2 = self1.
Proof.
  intros H1 H2.
  apply optimize_result in H1 as (_ & _ & ->).
  apply optimize_result in H2 as (_ & _ & ->).
  unfold set_params. simpl. f_equal.
  apply map_eq. intros name.
  destruct (decide (name = "lockdown_b")) as [-> | Hb];
    [rewrite !lookup_insert_eq; reflexivity |].
  destruct (decide (name = "lockdown_a")) as [-> | Ha].
  - rewrite !(lookup_insert_ne _ "lockdown_b") by discriminate.
    rewrite !lookup_insert_eq. reflexivity.
  - rewrite !lookup_insert_ne by congruence. reflexivity.
Qed.

(** [optimize] does not change its own objective: the model it returns
    gives every candidate pair the final death count it had before. *)
Theorem optimize_keeps_objective (self self' : SimpleCovidModel)
    (x : list R) (lockdown_a lockdown_b : R) :
  optimize self = Some self' ->
  optimizer self' x lockdown_a lockdown_b
  = optimizer self x lockdown_a lockdown_b.
Proof.
  intros Hopt. apply optimize_result in Hopt as (_ & _ & ->).
  apply optimizer_frame. intros name Hin.
  rewrite !lookup_insert_ne; [reflexivity | |];
    intros <-; simpl in Hin;
    repeat (apply elem_of_cons in Hin as [Hin | Hin]; [discriminate |]);
    apply elem_of_nil in Hin; contradiction.
Qed.

Lemma predict_after_optimize_eq (self self' : SimpleCovidModel) :
  optimize self = Some self' ->
  predict self'
  = (beta_a ← params self !! "beta_a";
     beta_b ← params self !! "beta_b";
     beta_k ← params self !! "beta_k";
     slipthrough ← params self !! "slipthrough";
     gamma ← params self !! "gamma";
     rho ← params self !! "rho";
     Some (transpose
             (odeint (deriv_of self) (y0 self) (t self)
                (float_of beta_a, float_of beta_b, float_of beta_k,
                 float_of slipthrough, 0.2, 0.2,
                 float_of gamma, float_of rho)))).
Proof.
  intros Hopt. apply optimize_result in Hopt as (_ & _ & ->).
  unfold predict. cbn [params set_params].
  rewrite (optimize_lookup_other (params self) "beta_a") by discriminate.
  rewrite (optimize_lookup_other (params self) "beta_b") by discriminate.
  rewrite (optimize_lookup_other (params self) "beta_k") by discriminate.
  rewrite (optimize_lookup_other (params self) "slipthrough")
    by discriminate.
  rewrite (optimize_lookup_other (params self) "gamma") by discriminate.
  rewrite (optimize_lookup_other (params self) "rho") by discriminate.
  rewrite (proj1 (optimize_lookup_own (params self))).
  rewrite (proj2 (optimize_lookup_own (params self))).
  destruct (params self !! "beta_a"); [| reflexivity].
  destruct (params self !! "beta_b"); [| reflexivity].
  destruct (params self !! "beta_k"); [| reflexivity].
  destruct (params self !! "slipthrough"); [| reflexivity].
  cbn [mbind option_bind].
  destruct (params self !! "gamma"); [| reflexivity].
  destruct (params self !! "rho"); reflexivity.
Qed.

(** After [optimize], [predict] simulates with [lockdown_a = lockdown_b =
    0.2] and the six other stored values, whatever the solver returned. *)
Theorem predict_after_optimize (self self' : SimpleCovidModel) :
  optimize self = Some self' ->
  predict self'
  = (beta_a ← params self !! "beta_a";
     beta_b ← params self !! "beta_b";
     beta_k ← params self !! "beta_k";
     slipthrough ← params self !! "slipthrough";
     gamma ← params self !! "gamma";
     rho ← params self !! "rho";
     Some (transpose
             (odeint (deriv_of self) (y0 self) (t self)
                (float_of beta_a, float_of beta_b, float_of beta_k,
                 float_of slipthrough, 0.2, 0.2,
                 float_of gamma, float_of rho)))).
Proof. apply predict_after_optimize_eq. Qed.

(** After [fit], [predict] simulates with the values of the solver's result,
    and fails when the result lacks one of the eight names. *)
Theorem predict_after_fit (self self' : SimpleCovidModel) :
  fit self = Some self' ->
  exists result : lmfit.Params,
    params self' = PyParameter <$> result
    /\ predict self'
       = (beta_a ← result !! "beta_a";
          beta_b ← result !! "beta_b";
          beta_k ← result !! "beta_k";
          slipthrough ← result !! "slipthrough";
          lockdown_a ← result !! "lockdown_a";
          lockdown_b ← result !! "lockdown_b";
          gamma ← result !! "gamma";
          rho ← result !! "rho";
          Some (transpose
                  (odeint (deriv_of self) (y0 self) (t self)
                     (lmfit.value beta_a, lmfit.value beta_b,
                      lmfit.value beta_k, lmfit.value slipthrough,
                      lmfit.value lockdown_a, lmfit.value lockdown_b,
                      lmfit.value gamma, lmfit.value rho)))).
Proof.
  unfold fit. intros Hfit.
  destruct (params self !! "beta_a"); [| discriminate].
  destruct (params self !! "beta_b"); [| discriminate].
  destruct (params self !! "beta_k"); [| discriminate].
  destruct (params self !! "slipthrough"); [| discriminate].
  destruct (params self !! "lockdown_a"); [| discriminate].
  destruct (params self !! "lockdown_b"); [| discriminate].
  destruct (params self !! "gamma"); [| discriminate].
  destruct (params self !! "rho"); [| discriminate].
  cbn [mbind option_bind] in Hfit.
  destruct (Model_fit _ _ _ _ _ _) as [result |]; [| discriminate].
  injection Hfit as <-. exists result. split; [reflexivity |].
  unfold predict. simpl. rewrite !lookup_fmap.
  destruct (result !! "beta_a"); [| reflexivity].
  destruct (result !! "beta_b"); [| reflexivity].
  destruct (result !! "beta_k"); [| reflexivity].
  destruct (result !! "slipthrough"); [| reflexivity].
  destruct (result !! "lockdown_a"); [| reflexivity].
  destruct (result !! "lockdown_b"); [| reflexivity].
  destruct (result !! "gamma"); [| reflexivity].
  destruct (result !! "rho"); reflexivity.
Qed.

(** What a successful [fit] returns. *)
Lemma fit_result (self self' : SimpleCovidModel) :
  fit self = Some self' ->
  exists result : lmfit.Params,
    self' = set_params self (PyParameter <$> result).
Proof.
  unfold fit. intros Hfit.
  destruct (params self !! "beta_a"); [| discriminate].
  destruct (params self !! "beta_b"); [| discriminate].
  destruct (params self !! "beta_k"); [| discriminate].
  destruct (params self !! "slipthrough"); [| discriminate].
  destruct (params self !! "lockdown_a"); [| discriminate].
  destruct (params self !! "lockdown_b"); [| discriminate].
  destruct (params self !! "gamma"); [| discriminate].
  destruct (params self !! "rho"); [| discriminate].
  cbn [mbind option_bind] in Hfit.
  destruct (Model_fit _ _ _ _ _ _) as [result |]; [| discriminate].
  injection Hfit as <-. exists result. reflexivity.
Qed.

Lemma ax_plot_Some (x y : list R) (label : string) (c : string * list R) :
  ax_plot x y label = Some c -> length x = length y /\ c = (label, y).
Proof.
  unfold ax_plot. destruct (decide (length x = length y)); [| discriminate].
  intros [= <-]. split; [assumption | reflexivity].
Qed.

(** When [plot] completes, the model went through [fit] and then
    [optimize]; the third axis shows the Infected and Dead curves simulated
    with the six fitted values and [lockdown_a = lockdown_b = 0.2], and
    nothing else; the observed series and every curve drawn have the length
    of the time grid. *)
Theorem plot_third_axis (self self' : SimpleCovidModel)
    (ax1 ax2 ax3 : Axes) :
  plot self = Some (ax1, ax2, ax3, self') ->
  exists self1 beta_a beta_b beta_k slipthrough gamma rho,
    fit self = Some self1
    /\ optimize self1 = Some self'
    /\ params self1 !! "beta_a" = Some beta_a
    /\ params self1 !! "beta_b" = Some beta_b
    /\ params self1 !! "beta_k" = Some beta_k
    /\ params self1 !! "slipthrough" = Some slipthrough
    /\ params self1 !! "gamma" = Some gamma
    /\ params self1 !! "rho" = Some rho
    /\ ax3
       = mkAxes "after optimizing"
           [("Infected",
             infected <$>
               odeint (deriv_of self) (y0 self) (t self)
                 (float_of beta_a, float_of beta_b, float_of beta_k,
                  float_of slipthrough, 0.2, 0.2,
                  float_of gamma, float_of rho));
            ("Dead",
             fitter self (t self) (float_of beta_a) (float_of beta_b)
               (float_of beta_k) (float_of slipthrough) 0.2 0.2
               (float_of gamma) (float_of rho))]
    /\ length (fit_data self) = length (t self)
    /\ Forall (fun c => length c.2 = length (t self))
         (curves ax1 ++ curves ax2 ++ curves ax3).
Proof.
  unfold plot. intros Hplot.
  destruct (predict self) as [[[[S1 I1] R1] D1] |]; [| discriminate].
  cbn [mbind option_bind] in Hplot.
  destruct (set_ax self (t self) S1 I1 R1 D1) as [c1 |] eqn:Ec1;
    [| discriminate].
  cbn [mbind option_bind] in Hplot.
  destruct (fit self) as [self1 |] eqn:Efit; [| discriminate].
  cbn [mbind option_bind] in Hplot.
  destruct (predict self1) as [[[[S2 I2] R2] D2] |]; [| discriminate].
  cbn [mbind option_bind] in Hplot.
  destruct (set_ax self1 (t self) S2 I2 R2 D2) as [c2 |] eqn:Ec2;
    [| discriminate].
  cbn [mbind option_bind] in Hplot.
  destruct (optimize self1) as [self2 |] eqn:Eopt; [| discriminate].
  cbn [mbind option_bind] in Hplot.
  destruct (predict self2) as [[[[S3 I3] R3] D3] |] eqn:Ep3; [| discriminate].
  cbn [mbind option_bind] in Hplot.
  destruct (set_ax_no_truedead self2 (t self) S3 I3 R3 D3) as [c3 |] eqn:Ec3;
    [| discriminate].
  cbn [mbind option_bind] in Hplot.
  injection Hplot as <- <- <- <-.
  destruct (fit_result _ _ Efit) as [result Hself1].
  rewrite (predict_after_optimize_eq _ _ Eopt) in Ep3.
  destruct (params self1 !! "beta_a") as [ba |] eqn:E1; [| discriminate].
  destruct (params self1 !! "beta_b") as [bb |] eqn:E2; [| discriminate].
  destruct (params self1 !! "beta_k") as [bk |] eqn:E3; [| discriminate].
  destruct (params self1 !! "slipthrough") as [s |] eqn:E4; [| discriminate].
  destruct (params self1 !! "gamma") as [g |] eqn:E5; [| discriminate].
  destruct (params self1 !! "rho") as [r |] eqn:E6; [| discriminate].
  cbn [mbind option_bind] in Ep3.
  rewrite Hself1 in Ep3. unfold transpose in Ep3. cbn in Ep3.
  injection Ep3 as <- <- <- <-.
  unfold set_ax in Ec1, Ec2. unfold set_ax_no_truedead in Ec3.
  destruct (ax_plot (t self) I1 "Infected") as [a1 |] eqn:A1;
    [| discriminate].
  destruct (ax_plot (t self) D1 "Dead") as [a2 |] eqn:A2; [| discriminate].
  destruct (ax_plot (t self) (fit_data self) "True Dead") as [a3 |] eqn:A3;
    [| discriminate].
  destruct (ax_plot (t self) I2 "Infected") as [b1 |] eqn:B1;
    [| discriminate].
  destruct (ax_plot (t self) D2 "Dead") as [b2 |] eqn:B2; [| discriminate].
  destruct (ax_plot (t self) (fit_data self1) "True Dead") as [b3 |] eqn:B3;
    [| discriminate].
  destruct (ax_plot (t self) _ "Infected") as [d1 |] eqn:C1 in Ec3;
    [| discriminate].
  destruct (ax_plot (t self) _ "Dead") as [d2 |] eqn:C2 in Ec3;
    [| discriminate].
  cbn [mbind option_bind] in Ec1, Ec2, Ec3.
  injection Ec1 as <-. injection Ec2 as <-. injection Ec3 as <-.
  apply ax_plot_Some in A1 as [LA1 ->], A2 as [LA2 ->], A3 as [LA3 ->].
  apply ax_plot_Some in B1 as [LB1 ->], B2 as [LB2 ->], B3 as [LB3 ->].
  apply ax_plot_Some in C1 as [LC1 ->], C2 as [LC2 ->].
  exists self1, ba, bb, bk, s, g, r.
  split; [reflexivity |]. split; [exact Eopt |].
  split; [exact E1 |]. split; [exact E2 |]. split; [exact E3 |].
  split; [exact E4 |]. split; [exact E5 |]. split; [exact E6 |].
  split; [reflexivity |]. split; [symmetry; exact LA3 |].
  cbn [curves app].
  repeat (apply Forall_cons; split; [cbn; congruence |]).
  apply Forall_nil. exact I.
Qed.

End Composition.

(** ** The pipeline on the sample model, with the Euler collaborators *)

#[local] Existing Instance euler_numerics.

Lemma fit_replaces_params_witness :
  exists self',
    fit sample_model = Some self'
    /\ exists (kwargs : gmap string pyval) (result : lmfit.Params),
         (forall name,
            name ∈ lmfit.param_names
                     (fitter_model sample_model) ->
            kwargs !! name = params sample_model !! name)
         /\ Model_fit (fitter_model sample_model)
              (fit_data sample_model)
              (make_params (fitter_model sample_model))
              "least_squares" (t sample_model) kwargs
            = Some result
         /\ (forall name,
               params self' !! name = PyParameter <$> result !! name)
         /\ (N self', days self', y0 self', t self', fit_data self')
            = (N sample_model, days sample_model, y0 sample_model,
               t sample_model, fit_data sample_model).
Proof.
  eexists. split; [reflexivity |].
  apply (fit_replaces_params sample_model).
  reflexivity.
Defined.


(** The objective on the one-day sample model: the grid has the single
    point 0, the trajectory is the initial state, and the final death
    count is its Dead component. *)
Example optimizer_sample (x : list R) (lockdown_a lockdown_b : R) :
  optimizer sample_model x lockdown_a lockdown_b
  = Some 0.
Proof. reflexivity. Qed.

(** C4, on the sample model: the solver's result holds [lockdown_a = 0.7],
    [optimize] completes, and the stored [lockdown_a] and [lockdown_b] are
    the initial guess [0.2], not the values of the result; the other six
    parameters keep their values. *)
Theorem optimize_discards_solver_result :
  exists (result : lmfit.Params) (self' : SimpleCovidModel),
    Model_fit
      (optimizer_model sample_model)
      (fit_data sample_model) optimize_guess "least_squares" (t sample_model)
      (list_to_map [("lockdown_a", PyFloat 0.7); ("lockdown_b", PyFloat 0)])
    = Some result
    /\ lmfit.value <$> result !! "lockdown_a" = Some 0.7
    /\ lmfit.value <$> result !! "lockdown_b" = Some 0
    /\ optimize sample_model = Some self'
    /\ float_of <$> params self' !! "lockdown_a" = Some 0.2
    /\ float_of <$> params self' !! "lockdown_b" = Some 0.2
    /\ float_of <$> params self' !! "lockdown_a"
       <> lmfit.value <$> result !! "lockdown_a"
    /\ (forall name, name <> "lockdown_a" -> name <> "lockdown_b" ->
                     params self' !! name = params sample_model !! name).
Proof.
  eexists _, _. split; [reflexivity |].
  split; [reflexivity |]. split; [reflexivity |].
  split; [reflexivity |].
  split; [reflexivity |]. split; [reflexivity |]. split.
  - intros Heq. change (Some 0.2 = Some 0.7) in Heq. injection Heq. lra.
  - intros name Ha Hb.
    apply (optimize_frame sample_model);
      [reflexivity | assumption | assumption].
Qed.

Lemma predict_dead_is_fitter_witness :
  exists Ss Is Rs Ds,
    predict sample_model = Some (Ss, Is, Rs, Ds)
    /\ length Ss = length Ds /\ length Is = length Ds
    /\ length Rs = length Ds
    /\ optimizer sample_model [] 0.7 0 = last Ds.
Proof.
  eassert (predict sample_model = Some (_, _, _, _)) as Hp by reflexivity.
  eexists _, _, _, _. split; [exact Hp |].
  destruct (predict_dead_is_fitter sample_model _ _ _ _ [] Hp)
    as (HS & HI & HR & ba & bb & bk & s & la & lb & g & r
        & E1 & E2 & E3 & E4 & E5 & E6 & E7 & E8 & _ & Hopt).
  injection E5 as <-. injection E6 as <-.
  split; [exact HS |]. split; [exact HI |]. split; [exact HR |].
  exact Hopt.
Defined.

Lemma optimize_keeps_keys_witness :
  exists self',
    optimize sample_model = Some self'
    /\ dom (params self') = dom (params sample_model)
    /\ (N self', days self', y0 self', t self', fit_data self')
       = (N sample_model, days sample_model, y0 sample_model,
          t sample_model, fit_data sample_model).
Proof.
  eexists. split; [reflexivity |].
  apply (optimize_keeps_keys sample_model). reflexivity.
Defined.

Lemma optimize_idempotent_witness :
  exists self1 self2,
    optimize sample_model = Some self1
    /\ optimize self1 = Some self2
    /\ self2 = self1.
Proof.
  eexists _, _. split; [reflexivity |]. split; [reflexivity |].
  eapply (optimize_idempotent sample_model); reflexivity.
Defined.

Lemma optimize_keeps_objective_witness :
  exists self',
    optimize sample_model = Some self'
    /\ optimizer self' [] 0.3 0.3 = optimizer sample_model [] 0.3 0.3.
Proof.
  eexists. split; [reflexivity |].
  apply (optimize_keeps_objective sample_model). reflexivity.
Defined.

Lemma predict_after_optimize_witness :
  exists self',
    optimize sample_model = Some self'
    /\ predict self'
       = Some (transpose
                 (odeint (deriv_of sample_model) (y0 sample_model)
                    (t sample_model) (0, 0, 0.4, 0, 0.2, 0.2, 0.1, 0.02))).
Proof.
  eexists. split; [reflexivity |].
  etransitivity;
    [apply (predict_after_optimize sample_model); reflexivity | reflexivity].
Defined.

Lemma predict_after_fit_witness :
  exists self' (result : lmfit.Params),
    fit sample_model = Some self'
    /\ params self' = PyParameter <$> result
    /\ predict self'
       = (beta_a ← result !! "beta_a";
          beta_b ← result !! "beta_b";
          beta_k ← result !! "beta_k";
          slipthrough ← result !! "slipthrough";
          lockdown_a ← result !! "lockdown_a";
          lockdown_b ← result !! "lockdown_b";
          gamma ← result !! "gamma";
          rho ← result !! "rho";
          Some (transpose
                  (odeint (deriv_of sample_model) (y0 sample_model)
                     (t sample_model)
                     (lmfit.value beta_a, lmfit.value beta_b,
                      lmfit.value beta_k, lmfit.value slipthrough,
                      lmfit.value lockdown_a, lmfit.value lockdown_b,
                      lmfit.value gamma, lmfit.value rho)))).
Proof.
  eassert (fit sample_model = Some _) as Hfit by reflexivity.
  destruct (predict_after_fit sample_model _ Hfit)
    as (result & Hparams & Hpredict).
  eexists _, result. split; [exact Hfit |]. split; assumption.
Defined.

Lemma plot_third_axis_witness :
  exists ax1 ax2 ax3 self',
    plot sample_model = Some (ax1, ax2, ax3, self')
    /\ title ax3 = "after optimizing"
    /\ length (fit_data sample_model) = length (t sample_model)
    /\ Forall (fun c => length c.2 = length (t sample_model))
         (curves ax1 ++ curves ax2 ++ curves ax3).
Proof.
  eassert (plot sample_model = Some (_, _, _, _)) as Hplot by reflexivity.
  destruct (plot_third_axis sample_model _ _ _ _ Hplot)
    as (self1 & ba & bb & bk & s & g & r & _ & _ & _ & _ & _ & _ & _ & _
        & Hax3 & Hlen & Hall).
  eexists _, _, _, _. split; [exact Hplot |].
  split; [reflexivity |]. split; [exact Hlen |]. exact Hall.
Defined.
